(** * NyumbaTZ: property normalisation, fallback filtering and query-cache
      coordination

    A shallow embedding of the data layer of the NyumbaTZ front-end:

    - [src/hooks/useProperties.ts]: the query keys, the two data-source
      branches of [useProperties], the mutation hooks and their cache
      handlers, and (second half of the same file) the [db.properties]
      helpers of [lib/supabase];
    - [src/main.tsx]: the [QueryClient] default options and the HomePage
      variant of [convertDbPropertyToAppProperty];
    - [src/data/mockData.ts]: the nine-entry [mockProperties] table.

    JavaScript numbers are modelled by [Z]: the model is exact for integers
    within the safe range, between [-2^53] and [2^53], where the arithmetic of
    doubles is that of the integers.  Strings are modelled by [string], one
    character per UTF-16 unit: the model is exact for ASCII text ([isAscii]),
    on which case folding, white space and lengths are those of the
    definitions below.  The theorems that depend on either restriction state
    it as a hypothesis. *)

From Stdlib Require Import ZArith Ascii String List Bool Lia.
From stdpp Require Import base option list strings countable gmap fin_maps pretty.

#[local] Set Warnings "-register-all".

Open Scope Z_scope.
Open Scope string_scope.
Open Scope list_scope.

(** ** JavaScript string primitives *)

Module Js.

(** [String.prototype.toLowerCase] on ASCII text: the letters [A] to [Z]
    are folded, every other character is kept.  (On text outside ASCII the
    method folds further letters, which this definition does not.) *)
Definition lower_ascii (c : ascii) : ascii :=
  let n := nat_of_ascii c in
  if (Nat.leb 65 n && Nat.leb n 90)%bool then ascii_of_nat (n + 32) else c.

Fixpoint toLowerCase (s : string) : string :=
  match s with
  | EmptyString => EmptyString
  | String c s' => String (lower_ascii c) (toLowerCase s')
  end.

Fixpoint startsWith (needle hay : string) : bool :=
  match needle, hay with
  | EmptyString, _ => true
  | String _ _, EmptyString => false
  | String a n', String b h' => Ascii.eqb a b && startsWith n' h'
  end.

(** [hay.includes(needle)]: [needle] occurs at some offset of [hay]. *)
Fixpoint includes (hay needle : string) : bool :=
  startsWith needle hay ||
  match hay with
  | EmptyString => false
  | String _ h' => includes h' needle
  end.

(** Truthiness of an optional string property: [undefined] and the empty
    string are falsy. *)
Definition truthy_string (s : string) : bool := negb (String.eqb s "").

(** Truthiness of a number: [0] is falsy. *)
Definition truthy_number (n : Z) : bool := negb (Z.eqb n 0).

End Js.

(** ** The canonical Property (the shape of the [mockProperties] literals
       and of the object built by [convertDbPropertyToAppProperty]) *)

Inductive PropertyType := house | apartment | studio | villa | room.

Inductive Status := available | rented | maintenance.

Definition propertyType_string (t : PropertyType) : string :=
  match t with
  | house => "house"
  | apartment => "apartment"
  | studio => "studio"
  | villa => "villa"
  | room => "room"
  end.

Definition status_string (s : Status) : string :=
  match s with
  | available => "available"
  | rented => "rented"
  | maintenance => "maintenance"
  end.

Record Location := {
  address : string;
  city : string;
  district : string;
  neighborhood : string
}.

Record Property := {
  id : string;
  ownerId : string;
  title : string;
  description : string;
  priceMonthly : Z;
  location : Location;
  bedrooms : Z;
  bathrooms : Z;
  propertyType : PropertyType;
  amenities : list string;
  images : list string;
  status : Status;
  createdDate : string;
  updatedDate : string;
  featured : bool;
  views : option Z
}.

(** ** Search filters

    Modelled from the spec: the declaration of [SearchFilters] ([src/types])
    is not among the sources.  The record lists every property that the two
    readers of a filter object access: the fallback branch of [useProperties]
    reads [location], [priceMin], [priceMax], [propertyType], [bedrooms],
    [bathrooms]; [db.properties.getAll] reads [city], [priceMin], [priceMax],
    [propertyType], [bedrooms], [bathrooms], [search], [limit], [offset].
    [None] is an absent ([undefined]) property. *)

Module SF.

Record SearchFilters := {
  location : option string;
  city : option string;
  priceMin : option Z;
  priceMax : option Z;
  propertyType : option string;
  bedrooms : option Z;
  bathrooms : option Z;
  search : option string;
  limit : option Z;
  offset : option Z
}.

(** The empty filter object [{}]. *)
Definition empty : SearchFilters :=
  {| location := None; city := None; priceMin := None; priceMax := None;
     propertyType := None; bedrooms := None; bathrooms := None;
     search := None; limit := None; offset := None |}.

Definition with_location (v : option string) (f : SearchFilters) :=
  {| location := v; city := city f; priceMin := priceMin f;
     priceMax := priceMax f; propertyType := propertyType f;
     bedrooms := bedrooms f; bathrooms := bathrooms f; search := search f;
     limit := limit f; offset := offset f |}.

Definition with_priceMin (v : option Z) (f : SearchFilters) :=
  {| location := location f; city := city f; priceMin := v;
     priceMax := priceMax f; propertyType := propertyType f;
     bedrooms := bedrooms f; bathrooms := bathrooms f; search := search f;
     limit := limit f; offset := offset f |}.

Definition with_priceMax (v : option Z) (f : SearchFilters) :=
  {| location := location f; city := city f; priceMin := priceMin f;
     priceMax := v; propertyType := propertyType f;
     bedrooms := bedrooms f; bathrooms := bathrooms f; search := search f;
     limit := limit f; offset := offset f |}.

Definition with_propertyType (v : option string) (f : SearchFilters) :=
  {| location := location f; city := city f; priceMin := priceMin f;
     priceMax := priceMax f; propertyType := v;
     bedrooms := bedrooms f; bathrooms := bathrooms f; search := search f;
     limit := limit f; offset := offset f |}.

Definition with_bedrooms (v : option Z) (f : SearchFilters) :=
  {| location := location f; city := city f; priceMin := priceMin f;
     priceMax := priceMax f; propertyType := propertyType f;
     bedrooms := v; bathrooms := bathrooms f; search := search f;
     limit := limit f; offset := offset f |}.

Definition with_bathrooms (v : option Z) (f : SearchFilters) :=
  {| location := location f; city := city f; priceMin := priceMin f;
     priceMax := priceMax f; propertyType := propertyType f;
     bedrooms := bedrooms f; bathrooms := v; search := search f;
     limit := limit f; offset := offset f |}.

Definition with_city (v : option string) (f : SearchFilters) :=
  {| location := location f; city := v; priceMin := priceMin f;
     priceMax := priceMax f; propertyType := propertyType f;
     bedrooms := bedrooms f; bathrooms := bathrooms f; search := search f;
     limit := limit f; offset := offset f |}.

Definition with_search (v : option string) (f : SearchFilters) :=
  {| location := location f; city := city f; priceMin := priceMin f;
     priceMax := priceMax f; propertyType := propertyType f;
     bedrooms := bedrooms f; bathrooms := bathrooms f; search := v;
     limit := limit f; offset := offset f |}.

End SF.

(** ** The fallback branch of [useProperties] (lines 57-89)

    [whenTruthy] is one [if (filters.x) { filtered = filtered.filter(...) }]
    statement: the criterion is applied only when the filter value is
    present and truthy. *)

Definition whenTruthy {A : Type} (truthy : A -> bool) (o : option A)
    (keep : A -> Property -> bool) (filtered : list Property) : list Property :=
  match o with
  | Some v => if truthy v then List.filter (keep v) filtered else filtered
  | None => filtered
  end.

Definition keep_location (loc : string) (p : Property) : bool :=
  Js.includes (Js.toLowerCase (city (location p))) (Js.toLowerCase loc).

Definition keep_priceMin (n : Z) (p : Property) : bool := (priceMonthly p >=? n)%Z.

Definition keep_priceMax (n : Z) (p : Property) : bool := (priceMonthly p <=? n)%Z.

Definition keep_propertyType (t : string) (p : Property) : bool :=
  String.eqb (propertyType_string (propertyType p)) t.

Definition keep_bedrooms (n : Z) (p : Property) : bool := (bedrooms p >=? n)%Z.

Definition keep_bathrooms (n : Z) (p : Property) : bool := (bathrooms p >=? n)%Z.

(** The filter evaluator, with the candidate list as an argument; the hook
    runs it on a copy of [mockProperties]. *)
Definition applyFilters (properties : list Property) (filters : SF.SearchFilters)
    : list Property :=
  let filtered := properties in
  let filtered := whenTruthy Js.truthy_string (SF.location filters) keep_location filtered in
  let filtered := whenTruthy Js.truthy_number (SF.priceMin filters) keep_priceMin filtered in
  let filtered := whenTruthy Js.truthy_number (SF.priceMax filters) keep_priceMax filtered in
  let filtered := whenTruthy Js.truthy_string (SF.propertyType filters) keep_propertyType filtered in
  let filtered := whenTruthy Js.truthy_number (SF.bedrooms filters) keep_bedrooms filtered in
  let filtered := whenTruthy Js.truthy_number (SF.bathrooms filters) keep_bathrooms filtered in
  filtered.

(** ** [src/data/mockData.ts]

    The timestamps are [new Date(Date.now() - k days).toISOString()]; the
    clock reading and the ISO rendering are the section's variables. *)

Section MockData.

Variable Date_now : Z.
Variable toISOString : Z -> string.

Definition mock1 : Property :=
  {| id := "1";
     ownerId := "owner-1";
     title := "Modern 3BR House in Masaki";
     description := "Beautiful modern house in the prestigious Masaki area with sea views. Perfect for professionals and families. Fully furnished with modern amenities including air conditioning, generator backup, and 24/7 security.";
     priceMonthly := 1200000;
     location :=
       {| address := "Masaki Peninsula";
          city := "Dar es Salaam";
          district := "Masaki";
          neighborhood := "Masaki" |};
     bedrooms := 3;
     bathrooms := 2;
     propertyType := house;
     amenities := ["Parking";
                   "Security";
                   "Generator";
                   "Water Tank";
                   "Garden";
                   "Air Conditioning";
                   "Internet";
                   "Furnished"];
     images :=
       ["https://images.pexels.com/photos/106399/pexels-photo-106399.jpeg?auto=compress&cs=tinysrgb&w=800";
        "https://images.pexels.com/photos/1643383/pexels-photo-1643383.jpeg?auto=compress&cs=tinysrgb&w=800";
        "https://images.pexels.com/photos/1571460/pexels-photo-1571460.jpeg?auto=compress&cs=tinysrgb&w=800"];
     status := available;
     createdDate := toISOString (Date_now - 2 * 24 * 60 * 60 * 1000);
     updatedDate := toISOString (Date_now - 2 * 24 * 60 * 60 * 1000);
     featured := true;
     views := None |}.

Definition mock2 : Property :=
  {| id := "2";
     ownerId := "owner-1";
     title := "Cozy 2BR Apartment in Mikocheni";
     description := "Well-maintained 2-bedroom apartment in Mikocheni. Close to shopping centers and public transport. Features include parking space, water tank, and reliable internet connection.";
     priceMonthly := 550000;
     location :=
       {| address := "Mikocheni B";
          city := "Dar es Salaam";
          district := "Mikocheni";
          neighborhood := "Mikocheni" |};
     bedrooms := 2;
     bathrooms := 1;
     propertyType := apartment;
     amenities := ["Parking";
                   "Security";
                   "Water Tank";
                   "Internet";
                   "Balcony"];
     images :=
       ["https://images.pexels.com/photos/1571453/pexels-photo-1571453.jpeg?auto=compress&cs=tinysrgb&w=800";
        "https://images.pexels.com/photos/1643383/pexels-photo-1643383.jpeg?auto=compress&cs=tinysrgb&w=800"];
     status := available;
     createdDate := toISOString (Date_now - 1 * 24 * 60 * 60 * 1000);
     updatedDate := toISOString (Date_now - 1 * 24 * 60 * 60 * 1000);
     featured := false;
     views := None |}.

Definition mock3 : Property :=
  {| id := "3";
     ownerId := "owner-1";
     title := "Luxury Villa in Oyster Bay";
     description := "Stunning luxury villa with ocean views in Oyster Bay. Features spacious rooms, private garden, swimming pool, and top-notch security. Perfect for executives and diplomats.";
     priceMonthly := 2500000;
     location :=
       {| address := "Oyster Bay Road";
          city := "Dar es Salaam";
          district := "Oyster Bay";
          neighborhood := "Oyster Bay" |};
     bedrooms := 4;
     bathrooms := 3;
     propertyType := villa;
     amenities := ["Parking";
                   "Security";
                   "Generator";
                   "Water Tank";
                   "Garden";
                   "Swimming Pool";
                   "Air Conditioning";
                   "Internet";
                   "Furnished"];
     images :=
       ["https://images.pexels.com/photos/1396122/pexels-photo-1396122.jpeg?auto=compress&cs=tinysrgb&w=800";
        "https://images.pexels.com/photos/1732414/pexels-photo-1732414.jpeg?auto=compress&cs=tinysrgb&w=800";
        "https://images.pexels.com/photos/259588/pexels-photo-259588.jpeg?auto=compress&cs=tinysrgb&w=800"];
     status := available;
     createdDate := toISOString (Date_now - 3 * 24 * 60 * 60 * 1000);
     updatedDate := toISOString (Date_now - 3 * 24 * 60 * 60 * 1000);
     featured := true;
     views := None |}.

Definition mock4 : Property :=
  {| id := "4";
     ownerId := "owner-1";
     title := "Executive House in Mwanza City";
     description := "Executive 4-bedroom house near Lake Victoria. Perfect for business executives with family. Features include large compound, parking for 3 cars, generator, and beautiful lake views.";
     priceMonthly := 800000;
     location :=
       {| address := "Ilemela District";
          city := "Mwanza";
          district := "Ilemela";
          neighborhood := "Ilemela" |};
     bedrooms := 4;
     bathrooms := 3;
     propertyType := house;
     amenities := ["Parking";
                   "Security";
                   "Generator";
                   "Water Tank";
                   "Garden";
                   "Internet"];
     images :=
       ["https://images.pexels.com/photos/323780/pexels-photo-323780.jpeg?auto=compress&cs=tinysrgb&w=800";
        "https://images.pexels.com/photos/1396122/pexels-photo-1396122.jpeg?auto=compress&cs=tinysrgb&w=800"];
     status := available;
     createdDate := toISOString (Date_now - 4 * 24 * 60 * 60 * 1000);
     updatedDate := toISOString (Date_now - 4 * 24 * 60 * 60 * 1000);
     featured := false;
     views := None |}.

Definition mock5 : Property :=
  {| id := "5";
     ownerId := "owner-1";
     title := "Modern Studio in Mbeya";
     description := "Compact modern studio apartment perfect for students and young professionals in Mbeya. Features include kitchenette, private bathroom, and reliable internet.";
     priceMonthly := 280000;
     location :=
       {| address := "Mbeya Urban";
          city := "Mbeya";
          district := "Mbeya Urban";
          neighborhood := "Mbeya Urban" |};
     bedrooms := 1;
     bathrooms := 1;
     propertyType := studio;
     amenities := ["Security";
                   "Internet"];
     images :=
       ["https://images.pexels.com/photos/1571460/pexels-photo-1571460.jpeg?auto=compress&cs=tinysrgb&w=800"];
     status := available;
     createdDate := toISOString (Date_now - 5 * 24 * 60 * 60 * 1000);
     updatedDate := toISOString (Date_now - 5 * 24 * 60 * 60 * 1000);
     featured := false;
     views := None |}.

Definition mock6 : Property :=
  {| id := "6";
     ownerId := "owner-1";
     title := "Safari Lodge Style House in Arusha";
     description := "Unique safari lodge style house in Arusha, perfect for tourists and expatriates. Close to Mount Meru with stunning mountain views. Features include fireplace, large garden, and traditional Tanzanian architecture.";
     priceMonthly := 950000;
     location :=
       {| address := "Arusha Central";
          city := "Arusha";
          district := "Arusha Central";
          neighborhood := "Arusha Central" |};
     bedrooms := 3;
     bathrooms := 2;
     propertyType := house;
     amenities := ["Parking";
                   "Security";
                   "Water Tank";
                   "Garden";
                   "Internet"];
     images :=
       ["https://images.pexels.com/photos/259588/pexels-photo-259588.jpeg?auto=compress&cs=tinysrgb&w=800";
        "https://images.pexels.com/photos/1396122/pexels-photo-1396122.jpeg?auto=compress&cs=tinysrgb&w=800"];
     status := available;
     createdDate := toISOString (Date_now - 6 * 24 * 60 * 60 * 1000);
     updatedDate := toISOString (Date_now - 6 * 24 * 60 * 60 * 1000);
     featured := false;
     views := None |}.

Definition mock7 : Property :=
  {| id := "7";
     ownerId := "owner-1";
     title := "Family Apartment in Mbeya Highlands";
     description := "Spacious 3-bedroom apartment in the cool highlands of Mbeya. Perfect for families with children. Features include balcony with mountain views, parking, and proximity to schools.";
     priceMonthly := 450000;
     location :=
       {| address := "Mbeya Highlands";
          city := "Mbeya";
          district := "Mbeya Highlands";
          neighborhood := "Mbeya Highlands" |};
     bedrooms := 3;
     bathrooms := 2;
     propertyType := apartment;
     amenities := ["Security";
                   "Water Tank";
                   "Internet"];
     images :=
       ["https://images.pexels.com/photos/323780/pexels-photo-323780.jpeg?auto=compress&cs=tinysrgb&w=800";
        "https://images.pexels.com/photos/1643383/pexels-photo-1643383.jpeg?auto=compress&cs=tinysrgb&w=800"];
     status := available;
     createdDate := toISOString (Date_now - 7 * 24 * 60 * 60 * 1000);
     updatedDate := toISOString (Date_now - 7 * 24 * 60 * 60 * 1000);
     featured := false;
     views := None |}.

Definition mock8 : Property :=
  {| id := "8";
     ownerId := "owner-1";
     title := "Single Room in Temeke";
     description := "Affordable single room in Temeke area. Perfect for students and young professionals. Shared bathroom and kitchen facilities. Close to public transport and markets.";
     priceMonthly := 180000;
     location :=
       {| address := "Temeke District";
          city := "Dar es Salaam";
          district := "Temeke";
          neighborhood := "Temeke" |};
     bedrooms := 1;
     bathrooms := 1;
     propertyType := room;
     amenities := ["Security"];
     images :=
       ["https://images.pexels.com/photos/1571460/pexels-photo-1571460.jpeg?auto=compress&cs=tinysrgb&w=800"];
     status := available;
     createdDate := toISOString (Date_now - 8 * 24 * 60 * 60 * 1000);
     updatedDate := toISOString (Date_now - 8 * 24 * 60 * 60 * 1000);
     featured := false;
     views := None |}.

Definition mock9 : Property :=
  {| id := "9";
     ownerId := "owner-1";
     title := "University Area House in Morogoro";
     description := "Perfect for university staff and families. 3-bedroom house near Sokoine University of Agriculture. Features include large compound, fruit trees, and quiet neighborhood.";
     priceMonthly := 600000;
     location :=
       {| address := "University Area";
          city := "Morogoro";
          district := "University Area";
          neighborhood := "University Area" |};
     bedrooms := 3;
     bathrooms := 2;
     propertyType := house;
     amenities := ["Parking";
                   "Security";
                   "Water Tank";
                   "Garden";
                   "Internet"];
     images :=
       ["https://images.pexels.com/photos/106399/pexels-photo-106399.jpeg?auto=compress&cs=tinysrgb&w=800";
        "https://images.pexels.com/photos/323780/pexels-photo-323780.jpeg?auto=compress&cs=tinysrgb&w=800"];
     status := available;
     createdDate := toISOString (Date_now - 9 * 24 * 60 * 60 * 1000);
     updatedDate := toISOString (Date_now - 9 * 24 * 60 * 60 * 1000);
     featured := false;
     views := None |}.

Definition mockProperties : list Property :=
  [mock1; mock2; mock3; mock4; mock5; mock6; mock7; mock8; mock9].

(** The fallback branch of the [useProperties] query function. *)
Definition useProperties_fallback (filters : SF.SearchFilters) : list Property :=
  applyFilters mockProperties filters.

End MockData.

(** ** Normalisation: [convertDbPropertyToAppProperty]

    The argument is typed [any]: a JavaScript object read by property name.
    It is modelled as a finite map from property names to values; reading a
    property that the object does not have yields [undefined].  The result
    is the object literal the function builds; the fields copied from the
    raw record keep whatever value the record held. *)

Module Untyped.

Inductive JsVal :=
  | JUndefined
  | JNull
  | JBool (b : bool)
  | JNum (n : Z)
  | JStr (s : string)
  | JArr (xs : list JsVal).

(** ToBoolean: [undefined], [null], [false], [0] and the empty string are
    falsy; every array, the empty one included, is truthy. *)
Definition truthy (v : JsVal) : bool :=
  match v with
  | JUndefined | JNull => false
  | JBool b => b
  | JNum n => negb (Z.eqb n 0)
  | JStr s => negb (String.eqb s "")
  | JArr _ => true
  end.

(** [a || b] *)
Definition js_or (a b : JsVal) : JsVal := if truthy a then a else b.

(** [dbProperty.name] *)
Definition get (dbProperty : gmap string JsVal) (name : string) : JsVal :=
  default JUndefined (dbProperty !! name).

Record Location := {
  address : JsVal;
  city : JsVal;
  district : JsVal;
  neighborhood : JsVal
}.

Record Property := {
  id : JsVal;
  ownerId : JsVal;
  title : JsVal;
  description : JsVal;
  priceMonthly : JsVal;
  location : Location;
  bedrooms : JsVal;
  bathrooms : JsVal;
  propertyType : JsVal;
  amenities : JsVal;
  images : JsVal;
  status : Status;
  createdDate : JsVal;
  updatedDate : JsVal;
  featured : JsVal
}.

Definition placeholder : string :=
  "https://images.pexels.com/photos/106399/pexels-photo-106399.jpeg".

(** [src/hooks/useProperties.ts], lines 25-48. *)
Definition convertDbPropertyToAppProperty (dbProperty : gmap string JsVal)
    : Property :=
  {| id := get dbProperty "id";
     ownerId := get dbProperty "owner_id";
     title := get dbProperty "title";
     description := get dbProperty "description";
     priceMonthly := get dbProperty "price_monthly";
     location :=
       {| address := js_or (get dbProperty "address") (JStr "");
          city := get dbProperty "city";
          district := get dbProperty "area";
          neighborhood := get dbProperty "area" |};
     bedrooms := get dbProperty "bedrooms";
     bathrooms := get dbProperty "bathrooms";
     propertyType := get dbProperty "property_type";
     amenities := js_or (get dbProperty "amenities") (JArr []);
     images := js_or (get dbProperty "images") (JArr [JStr placeholder]);
     status := if truthy (get dbProperty "is_available") then available else rented;
     createdDate := get dbProperty "created_at";
     updatedDate := get dbProperty "updated_at";
     featured := js_or (get dbProperty "is_featured") (JBool false) |}.

(** The HomePage variant ([src/main.tsx], lines 173-196). *)
Definition HomePage_convertDbPropertyToAppProperty
    (dbProperty : gmap string JsVal) : Property :=
  {| id := get dbProperty "id";
     ownerId := get dbProperty "owner_id";
     title := get dbProperty "title";
     description := get dbProperty "description";
     priceMonthly := get dbProperty "monthly_rent";
     location :=
       {| address := JStr "";
          city := get dbProperty "city";
          district := get dbProperty "area";
          neighborhood := get dbProperty "area" |};
     bedrooms := get dbProperty "bedrooms";
     bathrooms := get dbProperty "bathrooms";
     propertyType := get dbProperty "property_type";
     amenities := js_or (get dbProperty "amenities") (JArr []);
     images := js_or (get dbProperty "images") (JArr [JStr placeholder]);
     status := if truthy (get dbProperty "is_available") then available else rented;
     createdDate := get dbProperty "created_at";
     updatedDate := get dbProperty "updated_at";
     featured := JBool false |}.

(** [images.length > 0] for an array value. *)
Definition nonEmptyArray (v : JsVal) : bool :=
  match v with
  | JArr (_ :: _) => true
  | _ => false
  end.

(** The raw record of the normalisation scenario:
    [{monthly_rent: 800000, is_available: true, images: null, amenities: null}]. *)
Definition scenario_record : gmap string JsVal :=
  <["monthly_rent" := JNum 800000]>
  (<["is_available" := JBool true]>
  (<["images" := JNull]>
  (<["amenities" := JNull]> ∅))).

End Untyped.

(** ** Query keys ([PROPERTY_KEYS], lines 13-20)

    A query key is an array whose elements are strings or, for list
    queries, the filter object. *)

Inductive KeyPart :=
  | KStr (s : string)
  | KFilters (filters : SF.SearchFilters).

#[global] Instance SearchFilters_eq_dec : EqDecision SF.SearchFilters.
Proof. solve_decision. Defined.

#[global] Instance KeyPart_eq_dec : EqDecision KeyPart.
Proof. solve_decision. Defined.

#[global] Instance SearchFilters_countable : Countable SF.SearchFilters.
Proof.
  refine (inj_countable'
    (fun f => (SF.location f, SF.city f, SF.priceMin f, SF.priceMax f,
               SF.propertyType f, SF.bedrooms f, SF.bathrooms f,
               SF.search f, SF.limit f, SF.offset f))
    (fun t => match t with
              | (a, b, c, d, e, g, h, i, j, k) =>
                  SF.Build_SearchFilters a b c d e g h i j k
              end) _).
  intros []; reflexivity.
Defined.

#[global] Instance KeyPart_countable : Countable KeyPart.
Proof.
  refine (inj_countable'
    (fun k => match k with KStr s => inl s | KFilters f => inr f end)
    (fun x => match x with inl s => KStr s | inr f => KFilters f end) _).
  intros []; reflexivity.
Defined.

Module PROPERTY_KEYS.

Definition all : list KeyPart := [KStr "properties"].
Definition lists : list KeyPart := all ++ [KStr "list"].
Definition details : list KeyPart := all ++ [KStr "detail"].
Definition detail (id : string) : list KeyPart := details ++ [KStr id].
Definition byOwner (ownerId : string) : list KeyPart :=
  all ++ [KStr "owner"; KStr ownerId].
Definition list (filters : SF.SearchFilters) : Datatypes.list KeyPart :=
  lists ++ [KFilters filters].

End PROPERTY_KEYS.

(** ** The query cache

    The part of the query client that the hooks drive.  A cached query has
    its data, the time the data was written, and the invalidation flag; a
    query is served from the cache without a fetch while it is present, not
    invalidated and younger than the stale time. *)

Inductive QueryData :=
  | DataProperty (p : Property)
  | DataNull
  | DataList (l : list Property).

Record QueryState := {
  data : QueryData;
  dataUpdatedAt : Z;
  isInvalidated : bool
}.

Definition invalidate (q : QueryState) : QueryState :=
  {| data := data q; dataUpdatedAt := dataUpdatedAt q; isInvalidated := true |}.

(** A filter key matches every query whose key starts with it.  The filter
    keys that the hooks pass ([all], [lists], [detail id], [byOwner id])
    hold strings only, compared by equality. *)
Fixpoint partialMatchKey (queryKey filterKey : list KeyPart) : bool :=
  match filterKey, queryKey with
  | [], _ => true
  | _ :: _, [] => false
  | f :: fs, k :: ks => bool_decide (f = k) && partialMatchKey ks fs
  end.

Definition invalidateQueries (filterKey : list KeyPart)
    (c : gmap (list KeyPart) QueryState) : gmap (list KeyPart) QueryState :=
  map_imap (fun k q => Some (if partialMatchKey k filterKey then invalidate q else q)) c.

Definition removeQueries (filterKey : list KeyPart)
    (c : gmap (list KeyPart) QueryState) : gmap (list KeyPart) QueryState :=
  filter (fun kq => partialMatchKey kq.1 filterKey = false) c.

(** [setQueryData(key, value)]: the value is written with the current time
    and the query is no longer invalidated. *)
Definition setQueryData (key : list KeyPart) (value : QueryData) (now : Z)
    (c : gmap (list KeyPart) QueryState) : gmap (list KeyPart) QueryState :=
  <[key := {| data := value; dataUpdatedAt := now; isInvalidated := false |}]> c.

(** [setQueryData(key, updater)]: the updater receives the cached data
    ([None] is [undefined]); an [undefined] result leaves the cache alone. *)
Definition setQueryData_with (key : list KeyPart)
    (updater : option QueryData -> option QueryData) (now : Z)
    (c : gmap (list KeyPart) QueryState) : gmap (list KeyPart) QueryState :=
  match updater (data <$> c !! key) with
  | None => c
  | Some value => setQueryData key value now c
  end.

(** What a read of [key] at time [now] is served without fetching. *)
Definition servedFromCache (c : gmap (list KeyPart) QueryState)
    (key : list KeyPart) (now staleTime : Z) : option QueryData :=
  match c !! key with
  | Some q =>
      if isInvalidated q then None
      else if (now - dataUpdatedAt q <? staleTime)%Z then Some (data q)
      else None
  | None => None
  end.

(** A read of [key] has to fetch: the query is absent or invalidated. *)
Definition mustRefetch (c : gmap (list KeyPart) QueryState)
    (key : list KeyPart) : Prop :=
  match c !! key with
  | Some q => isInvalidated q = true
  | None => True
  end.

(** The views counter shown by the cached detail record of a property. *)
Definition cachedViews (c : gmap (list KeyPart) QueryState) (id : string)
    : option Z :=
  match c !! PROPERTY_KEYS.detail id with
  | Some q =>
      match data q with
      | DataProperty p => Some (default 0 (views p))
      | _ => None
      end
  | None => None
  end.

(** ** Mutation hooks (lines 151-262)

    A mutation runs its [mutationFn]; when that resolves the [onSuccess]
    handler runs with the resolved value, when it rejects no handler of
    these hooks runs (none of them defines [onMutate] or [onError]). *)

Inductive Outcome (A : Type) :=
  | Resolved (a : A)
  | Rejected (message : string).
Arguments Resolved {A} a.
Arguments Rejected {A} message.

(** The [{ data, error }] answer of a [db.properties] helper. *)
Inductive Response (A : Type) :=
  | ResponseData (a : A)
  | ResponseError (message : string).
Arguments ResponseData {A} a.
Arguments ResponseError {A} message.

Inductive MutationStatus := idle | loading | success | error.

Record ClientState := {
  queries : gmap (list KeyPart) QueryState;
  mutation : MutationStatus
}.

(** [mutate(variables)] was called and [mutationFn] is awaiting. *)
Definition mutate (st : ClientState) : ClientState :=
  {| queries := queries st; mutation := loading |}.

(** [mutationFn] settled. *)
Definition settle {A : Type}
    (onSuccess : A -> gmap (list KeyPart) QueryState -> gmap (list KeyPart) QueryState)
    (o : Outcome A) (st : ClientState) : ClientState :=
  match o with
  | Resolved a => {| queries := onSuccess a (queries st); mutation := success |}
  | Rejected _ => {| queries := queries st; mutation := error |}
  end.

Definition with_views (v : option Z) (p : Property) : Property :=
  {| id := id p; ownerId := ownerId p; title := title p;
     description := description p; priceMonthly := priceMonthly p;
     location := location p; bedrooms := bedrooms p; bathrooms := bathrooms p;
     propertyType := propertyType p; amenities := amenities p;
     images := images p; status := status p; createdDate := createdDate p;
     updatedDate := updatedDate p; featured := featured p; views := v |}.

Section Mutations.

Variable isSupabaseConfigured : bool.

(** The record a [db.properties] helper answers with, and the typed view of
    [convertDbPropertyToAppProperty] that the handlers receive. *)
Variable DbRecord : Type.
Variable convertDbPropertyToAppProperty : DbRecord -> Property.

(** *** [useCreateProperty] *)

Definition createProperty_mutationFn (response : Response DbRecord)
    : Outcome Property :=
  if negb isSupabaseConfigured then Rejected "Supabase not configured"
  else match response with
       | ResponseError e => Rejected e
       | ResponseData d => Resolved (convertDbPropertyToAppProperty d)
       end.

Definition createProperty_onSuccess (newProperty : Property)
    (c : gmap (list KeyPart) QueryState) : gmap (list KeyPart) QueryState :=
  let c := invalidateQueries PROPERTY_KEYS.lists c in
  invalidateQueries (PROPERTY_KEYS.byOwner (ownerId newProperty)) c.

Definition useCreateProperty (response : Response DbRecord)
    (st : ClientState) : ClientState :=
  settle createProperty_onSuccess (createProperty_mutationFn response) (mutate st).

(** *** [useUpdateProperty] *)

Definition updateProperty_mutationFn (response : Response DbRecord)
    : Outcome Property :=
  if negb isSupabaseConfigured then Rejected "Supabase not configured"
  else match response with
       | ResponseError e => Rejected e
       | ResponseData d => Resolved (convertDbPropertyToAppProperty d)
       end.

Definition updateProperty_onSuccess (now : Z) (updatedProperty : Property)
    (c : gmap (list KeyPart) QueryState) : gmap (list KeyPart) QueryState :=
  let c := setQueryData (PROPERTY_KEYS.detail (id updatedProperty))
             (DataProperty updatedProperty) now c in
  let c := invalidateQueries PROPERTY_KEYS.lists c in
  invalidateQueries (PROPERTY_KEYS.byOwner (ownerId updatedProperty)) c.

Definition useUpdateProperty (now : Z) (response : Response DbRecord)
    (st : ClientState) : ClientState :=
  settle (updateProperty_onSuccess now) (updateProperty_mutationFn response)
    (mutate st).

(** *** [useDeleteProperty] *)

Definition deleteProperty_mutationFn (id : string) (response : Response unit)
    : Outcome string :=
  if negb isSupabaseConfigured then Rejected "Supabase not configured"
  else match response with
       | ResponseError e => Rejected e
       | ResponseData _ => Resolved id
       end.

Definition deleteProperty_onSuccess (deletedId : string)
    (c : gmap (list KeyPart) QueryState) : gmap (list KeyPart) QueryState :=
  let c := removeQueries (PROPERTY_KEYS.detail deletedId) c in
  let c := invalidateQueries PROPERTY_KEYS.lists c in
  invalidateQueries PROPERTY_KEYS.all c.

Definition useDeleteProperty (id : string) (response : Response unit)
    (st : ClientState) : ClientState :=
  settle deleteProperty_onSuccess (deleteProperty_mutationFn id response)
    (mutate st).

(** *** [useIncrementViews]

    [response] is what awaiting [db.properties.incrementViews(propertyId)]
    gives; the [db.properties] object of the sources declares no such
    helper, and calling it throws, which is a [ResponseError] here. *)

Definition incrementViews_mutationFn (response : Response unit) : Outcome unit :=
  if negb isSupabaseConfigured then Resolved tt
  else match response with
       | ResponseError e => Rejected e
       | ResponseData _ => Resolved tt
       end.

(** The updater handed to [setQueryData]: [if (!old) return old;
    return { ...old, views: (old.views || 0) + 1 }].  Only a property or
    [null] is ever stored under a detail key; a list is handed back as it
    is.  The addition is that of the integers, which is the addition of the
    code while the counter stays within the safe range (below [2^53]). *)
Definition incrementViews_updater (old : option QueryData) : option QueryData :=
  match old with
  | None => None
  | Some DataNull => Some DataNull
  | Some (DataProperty p) =>
      Some (DataProperty (with_views (Some (default 0 (views p) + 1)) p))
  | Some (DataList l) => Some (DataList l)
  end.

Definition incrementViews_onSuccess (now : Z) (propertyId : string) (_ : unit)
    (c : gmap (list KeyPart) QueryState) : gmap (list KeyPart) QueryState :=
  setQueryData_with (PROPERTY_KEYS.detail propertyId) incrementViews_updater now c.

(** The two observable moments of [useIncrementViews().mutate(propertyId)]:
    right after the call, and once the remote call has settled. *)
Definition useIncrementViews_issued (st : ClientState) : ClientState :=
  mutate st.

Definition useIncrementViews_settled (now : Z) (propertyId : string)
    (response : Response unit) (st : ClientState) : ClientState :=
  settle (incrementViews_onSuccess now propertyId)
    (incrementViews_mutationFn response) (useIncrementViews_issued st).

End Mutations.

(** ** Retry policy of the query client ([src/main.tsx], lines 40-54) *)

Record QueryError := { error_status : option Z }.

(** [error?.status >= 400 && error?.status < 500]: both comparisons are
    false when the status is [undefined]. *)
Definition is4xx (e : QueryError) : bool :=
  match error_status e with
  | Some s => (s >=? 400)%Z && (s <? 500)%Z
  | None => false
  end.

Definition retry (failureCount : Z) (e : QueryError) : bool :=
  if is4xx e then false else (failureCount <? 3)%Z.

(** One attempt of a query function against the backend. *)
Inductive Attempt (A : Type) :=
  | Succeeds (a : A)
  | Fails (e : QueryError).
Arguments Succeeds {A} a.
Arguments Fails {A} e.

(** The query client's retry loop: run the query function; on a failure ask
    [retry] with the number of failures so far, and either run again or
    surface the error.  [attempts] lists what each successive run of the
    query function would give; the result is the number of runs made and
    the settled value ([None]: the listed runs are used up and the loop is
    about to run again). *)
Fixpoint fetchWithRetry {A : Type} (failureCount : Z) (attempts : list (Attempt A))
    : nat * option (Attempt A) :=
  match attempts with
  | [] => (0%nat, None)
  | Succeeds a :: _ => (1%nat, Some (Succeeds a))
  | Fails e :: rest =>
      if retry failureCount e
      then let r := fetchWithRetry (failureCount + 1) rest in (S (fst r), snd r)
      else (1%nat, Some (Fails e))
  end.

(** ** The remote list query ([db.properties.getAll], lib/supabase)

    The query is built as data: the filters attached to the [properties]
    table in call order, the ordering, and the pagination.  [matches]
    evaluates the filters on one row, with the meaning the backend gives
    them ([ilike] is a case-insensitive [LIKE], where [%] stands for any
    run of characters and [_] for any one character).  This is the meaning
    of the patterns that [getAll] builds from plain text (ASCII letters,
    digits and spaces, [plainText]) on ASCII columns; in other texts the
    backend gives a meaning of their own to the backslash, to [*] and,
    inside [or], to commas and parentheses. *)

Module Db.

(** [Database['public']['Tables']['properties']['Row']] *)
Record Row := {
  id : string;
  owner_id : string;
  title : string;
  description : string;
  property_type : PropertyType;
  bedrooms : Z;
  bathrooms : Z;
  monthly_rent : Z;
  city : string;
  area : string;
  contact_phone : string;
  images : list string;
  amenities : list string;
  is_available : bool;
  created_at : string;
  updated_at : string
}.

Inductive Filter :=
  | EqBool (column : string) (value : bool)
  | EqText (column : string) (value : string)
  | Ilike (column : string) (pattern : string)
  | Gte (column : string) (value : Z)
  | Lte (column : string) (value : Z)
  | OrIlike (alternatives : list (string * string)).

Record Query := {
  filters : list Filter;
  order : string * bool;
  limit : option Z;
  range : option (Z * Z)
}.

Definition addFilter (f : Filter) (q : Query) : Query :=
  {| filters := filters q ++ [f]; order := order q; limit := limit q;
     range := range q |}.

Definition setLimit (n : Z) (q : Query) : Query :=
  {| filters := filters q; order := order q; limit := Some n; range := range q |}.

Definition setRange (from to : Z) (q : Query) : Query :=
  {| filters := filters q; order := order q; limit := limit q;
     range := Some (from, to) |}.

(** One [if (filters?.x) { query = query.f(...) }] statement. *)
Definition whenTruthy {A : Type} (truthy : A -> bool) (o : option A)
    (step : A -> Query -> Query) (q : Query) : Query :=
  match o with
  | Some v => if truthy v then step v q else q
  | None => q
  end.

Definition contains_pattern (s : string) : string := "%" ++ s ++ "%".

Definition getAll (f : SF.SearchFilters) : Query :=
  let query :=
    {| filters := [EqBool "is_available" true];
       order := ("created_at", false);
       limit := None;
       range := None |} in
  let query := whenTruthy Js.truthy_string (SF.city f)
      (fun v => addFilter (Ilike "city" (contains_pattern v))) query in
  let query := whenTruthy Js.truthy_number (SF.priceMin f)
      (fun v => addFilter (Gte "monthly_rent" v)) query in
  let query := whenTruthy Js.truthy_number (SF.priceMax f)
      (fun v => addFilter (Lte "monthly_rent" v)) query in
  let query := whenTruthy Js.truthy_string (SF.propertyType f)
      (fun v => addFilter (EqText "property_type" v)) query in
  let query := whenTruthy Js.truthy_number (SF.bedrooms f)
      (fun v => addFilter (Gte "bedrooms" v)) query in
  let query := whenTruthy Js.truthy_number (SF.bathrooms f)
      (fun v => addFilter (Gte "bathrooms" v)) query in
  let query := whenTruthy Js.truthy_string (SF.search f)
      (fun v => addFilter (OrIlike
         [("title", contains_pattern v); ("description", contains_pattern v);
          ("city", contains_pattern v); ("area", contains_pattern v)])) query in
  let query := whenTruthy Js.truthy_number (SF.limit f) setLimit query in
  let query := whenTruthy Js.truthy_number (SF.offset f)
      (fun v => setRange v (v + (match SF.limit f with
                                 | Some l => if Js.truthy_number l then l else 10
                                 | None => 10
                                 end) - 1)) query in
  query.

Definition textColumn (r : Row) (column : string) : option string :=
  if String.eqb column "title" then Some (title r)
  else if String.eqb column "description" then Some (description r)
  else if String.eqb column "city" then Some (city r)
  else if String.eqb column "area" then Some (area r)
  else if String.eqb column "property_type"
       then Some (propertyType_string (property_type r))
  else None.

Definition numberColumn (r : Row) (column : string) : option Z :=
  if String.eqb column "monthly_rent" then Some (monthly_rent r)
  else if String.eqb column "bedrooms" then Some (bedrooms r)
  else if String.eqb column "bathrooms" then Some (bathrooms r)
  else None.

Definition boolColumn (r : Row) (column : string) : option bool :=
  if String.eqb column "is_available" then Some (is_available r) else None.

Fixpoint like (pattern : string) : string -> bool :=
  match pattern with
  | EmptyString => fun s => match s with EmptyString => true | _ => false end
  | String c pattern' =>
      if Ascii.eqb c "%"%char then
        fix skip (s : string) : bool :=
          like pattern' s ||
          match s with
          | EmptyString => false
          | String _ s' => skip s'
          end
      else if Ascii.eqb c "_"%char then
        fun s => match s with
                 | EmptyString => false
                 | String _ s' => like pattern' s'
                 end
      else
        fun s => match s with
                 | EmptyString => false
                 | String d s' => Ascii.eqb c d && like pattern' s'
                 end
  end.

Definition ilike (pattern s : string) : bool :=
  like (Js.toLowerCase pattern) (Js.toLowerCase s).

Definition ilikeColumn (r : Row) (cp : string * string) : bool :=
  match textColumn r (fst cp) with
  | Some s => ilike (snd cp) s
  | None => false
  end.

Definition holds (r : Row) (f : Filter) : bool :=
  match f with
  | EqBool c v => match boolColumn r c with Some b => Bool.eqb b v | None => false end
  | EqText c v => match textColumn r c with Some s => String.eqb s v | None => false end
  | Ilike c p => ilikeColumn r (c, p)
  | Gte c v => match numberColumn r c with Some n => (n >=? v)%Z | None => false end
  | Lte c v => match numberColumn r c with Some n => (n <=? v)%Z | None => false end
  | OrIlike alts => existsb (ilikeColumn r) alts
  end.

(** The row satisfies every filter of the query. *)
Definition matches (q : Query) (r : Row) : bool := forallb (holds r) (filters q).

Definition with_is_available (b : bool) (r : Row) : Row :=
  {| id := id r; owner_id := owner_id r; title := title r;
     description := description r; property_type := property_type r;
     bedrooms := bedrooms r; bathrooms := bathrooms r;
     monthly_rent := monthly_rent r; city := city r; area := area r;
     contact_phone := contact_phone r; images := images r;
     amenities := amenities r; is_available := b;
     created_at := created_at r; updated_at := updated_at r |}.

(** The fourth sample row of the seed migration
    ([supabase/migrations/20250624104232_bold_heart.sql]) as inserted, with
    [amenities] at the column default; [created] is its
    [now() - interval '4 days'] timestamp. *)
Definition seed4 (created : string) : Row :=
  {| id := "44444444-4444-4444-4444-444444444444";
     owner_id := "550e8400-e29b-41d4-a716-446655440000";
     title := "Executive House in Mwanza City";
     description := "Executive 4-bedroom house near Lake Victoria. Perfect for business executives with family. Features include large compound, parking for 3 cars, generator, and beautiful lake views.";
     property_type := house;
     bedrooms := 4;
     bathrooms := 3;
     monthly_rent := 800000;
     city := "Mwanza";
     area := "Ilemela";
     contact_phone := "+255712345678";
     images :=
       ["https://images.pexels.com/photos/323780/pexels-photo-323780.jpeg?auto=compress&cs=tinysrgb&w=800";
        "https://images.pexels.com/photos/1396122/pexels-photo-1396122.jpeg?auto=compress&cs=tinysrgb&w=800"];
     amenities := [];
     is_available := true;
     created_at := created;
     updated_at := created |}.

End Db.

(** The HomePage variant of [convertDbPropertyToAppProperty] on a record
    that has the declared [Row] type: every property read is present with
    its declared type, and an array, empty or not, is truthy. *)
Definition HomePage_convertRow (dbProperty : Db.Row) : Property :=
  {| id := Db.id dbProperty;
     ownerId := Db.owner_id dbProperty;
     title := Db.title dbProperty;
     description := Db.description dbProperty;
     priceMonthly := Db.monthly_rent dbProperty;
     location :=
       {| address := "";
          city := Db.city dbProperty;
          district := Db.area dbProperty;
          neighborhood := Db.area dbProperty |};
     bedrooms := Db.bedrooms dbProperty;
     bathrooms := Db.bathrooms dbProperty;
     propertyType := Db.property_type dbProperty;
     amenities := Db.amenities dbProperty;
     images := Db.images dbProperty;
     status := if Db.is_available dbProperty then available else rented;
     createdDate := Db.created_at dbProperty;
     updatedDate := Db.updated_at dbProperty;
     featured := false;
     views := None |}.

(** The fallback branch keeps [p]: it survives [applyFilters] on its own. *)
Definition fallbackKeeps (filters : SF.SearchFilters) (p : Property) : bool :=
  match applyFilters [p] filters with
  | [] => false
  | _ :: _ => true
  end.

(** The conjunction of the criteria that [applyFilters] applies: one
    criterion per filter property, vacuous when the property is absent or
    falsy. *)
Definition criterion {A : Type} (truthy : A -> bool) (o : option A)
    (keep : A -> Property -> bool) (p : Property) : bool :=
  match o with
  | Some v => if truthy v then keep v p else true
  | None => true
  end.

Definition satisfies (filters : SF.SearchFilters) (p : Property) : bool :=
  criterion Js.truthy_string (SF.location filters) keep_location p &&
  criterion Js.truthy_number (SF.priceMin filters) keep_priceMin p &&
  criterion Js.truthy_number (SF.priceMax filters) keep_priceMax p &&
  criterion Js.truthy_string (SF.propertyType filters) keep_propertyType p &&
  criterion Js.truthy_number (SF.bedrooms filters) keep_bedrooms p &&
  criterion Js.truthy_number (SF.bathrooms filters) keep_bathrooms p.

(** ** The fallback branches of [useProperty] and [usePropertiesByOwner]
       (lines 105-146) *)

(** [properties.find(p => p.id === id) || null]; [None] is [null]. *)
Definition findProperty (properties : list Property) (id0 : string)
    : option Property :=
  List.find (fun p => String.eqb (id p) id0) properties.

(** [properties.filter(p => p.ownerId === ownerId)] *)
Definition filterByOwner (properties : list Property) (ownerId0 : string)
    : list Property :=
  List.filter (fun p => String.eqb (ownerId p) ownerId0) properties.

Section MockQueries.

Variable Date_now : Z.
Variable toISOString : Z -> string.

Definition useProperty_fallback (id0 : string) : option Property :=
  findProperty (mockProperties Date_now toISOString) id0.

Definition usePropertiesByOwner_fallback (ownerId0 : string) : list Property :=
  filterByOwner (mockProperties Date_now toISOString) ownerId0.

End MockQueries.

(** ** Records of the declared row type as raw records

    [rowToJs] is the JavaScript object that a row of the declared [Row]
    type is; [untypedProperty] is a typed property seen as the object
    literal that the conversions build (which has no [views] property). *)

Definition rowToJs (r : Db.Row) : gmap string Untyped.JsVal :=
  <["id" := Untyped.JStr (Db.id r)]>
  (<["owner_id" := Untyped.JStr (Db.owner_id r)]>
  (<["title" := Untyped.JStr (Db.title r)]>
  (<["description" := Untyped.JStr (Db.description r)]>
  (<["property_type" := Untyped.JStr (propertyType_string (Db.property_type r))]>
  (<["bedrooms" := Untyped.JNum (Db.bedrooms r)]>
  (<["bathrooms" := Untyped.JNum (Db.bathrooms r)]>
  (<["monthly_rent" := Untyped.JNum (Db.monthly_rent r)]>
  (<["city" := Untyped.JStr (Db.city r)]>
  (<["area" := Untyped.JStr (Db.area r)]>
  (<["contact_phone" := Untyped.JStr (Db.contact_phone r)]>
  (<["images" := Untyped.JArr (map Untyped.JStr (Db.images r))]>
  (<["amenities" := Untyped.JArr (map Untyped.JStr (Db.amenities r))]>
  (<["is_available" := Untyped.JBool (Db.is_available r)]>
  (<["created_at" := Untyped.JStr (Db.created_at r)]>
  (<["updated_at" := Untyped.JStr (Db.updated_at r)]> ∅))))))))))))))).

Definition untypedProperty (p : Property) : Untyped.Property :=
  {| Untyped.id := Untyped.JStr (id p);
     Untyped.ownerId := Untyped.JStr (ownerId p);
     Untyped.title := Untyped.JStr (title p);
     Untyped.description := Untyped.JStr (description p);
     Untyped.priceMonthly := Untyped.JNum (priceMonthly p);
     Untyped.location :=
       {| Untyped.address := Untyped.JStr (address (location p));
          Untyped.city := Untyped.JStr (city (location p));
          Untyped.district := Untyped.JStr (district (location p));
          Untyped.neighborhood := Untyped.JStr (neighborhood (location p)) |};
     Untyped.bedrooms := Untyped.JNum (bedrooms p);
     Untyped.bathrooms := Untyped.JNum (bathrooms p);
     Untyped.propertyType := Untyped.JStr (propertyType_string (propertyType p));
     Untyped.amenities := Untyped.JArr (map Untyped.JStr (amenities p));
     Untyped.images := Untyped.JArr (map Untyped.JStr (images p));
     Untyped.status := status p;
     Untyped.createdDate := Untyped.JStr (createdDate p);
     Untyped.updatedDate := Untyped.JStr (updatedDate p);
     Untyped.featured := Untyped.JBool (featured p) |}.

(** A text without the two wildcard characters of [LIKE] patterns. *)
Fixpoint wildcardFree (s : string) : bool :=
  match s with
  | EmptyString => true
  | String c s' =>
      negb (Ascii.eqb c "%"%char) && negb (Ascii.eqb c "_"%char) && wildcardFree s'
  end.

(** ** Backend configuration (lib/supabase)

    [isSupabaseConfigured] is
    [supabaseUrl && supabaseAnonKey && !supabaseUrl.includes('your-project')
     && !supabaseAnonKey.includes('your-anon-key')]; every reader only tests
    it, and the definition gives its truthiness.  The two settings are
    environment variables: a string or [undefined]. *)

Definition isSupabaseConfigured (supabaseUrl supabaseAnonKey : option string)
    : bool :=
  match supabaseUrl, supabaseAnonKey with
  | Some url, Some key =>
      Js.truthy_string url && Js.truthy_string key &&
      negb (Js.includes url "your-project") &&
      negb (Js.includes key "your-anon-key")
  | _, _ => false
  end.

(** ** Storage paths ([storage.uploadAvatar], [storage.uploadPropertyImages]) *)

Module Storage.

(** [s.split(sep)] for a one-character separator. *)
Fixpoint split (sep : ascii) (s : string) : list string :=
  match s with
  | EmptyString => [EmptyString]
  | String c s' =>
      if Ascii.eqb c sep then EmptyString :: split sep s'
      else match split sep s' with
           | h :: t => String c h :: t
           | [] => [String c EmptyString]
           end
  end.

(** [parts.join(sep)] *)
Fixpoint join (sep : string) (parts : list string) : string :=
  match parts with
  | [] => EmptyString
  | [x] => x
  | x :: rest => x +:+ sep +:+ join sep rest
  end.

(** [parts.pop()]: the last element, [undefined] for an empty array. *)
Definition pop (parts : list string) : option string := last parts.

(** A possibly [undefined] string inside a template literal. *)
Definition render (v : option string) : string := default "undefined" v.

(** [file.name.split('.').pop()] *)
Definition fileExt (name : string) : string := render (pop (split "." name)).

(** [`${userId}/avatar.${fileExt}`] *)
Definition uploadAvatar_fileName (userId name : string) : string :=
  userId +:+ "/avatar." +:+ fileExt name.

(** [`${propertyId}/${Date.now()}-${index}.${fileExt}`]; the clock reading
    and the index are non-negative integers, rendered in decimal. *)
Definition uploadPropertyImages_fileName (propertyId : string) (Date_now : N)
    (index : nat) (name : string) : string :=
  propertyId +:+ "/" +:+ pretty Date_now +:+ "-" +:+ pretty index +:+ "."
    +:+ fileExt name.

End Storage.

(** Every character of [s] satisfies [P]. *)
Fixpoint allChars (P : ascii -> bool) (s : string) : bool :=
  match s with
  | EmptyString => true
  | String c s' => P c && allChars P s'
  end.

Definition isDigit (c : ascii) : bool :=
  let n := nat_of_ascii c in (Nat.leb 48 n && Nat.leb n 57)%bool.

(** ** Regular expressions

    The two patterns of [VALIDATION] are anchored at both ends and are
    tested for a match, so [test] is membership of the whole string in the
    language of the pattern.  [matches] decides it by derivatives; [Lang]
    is the language itself. *)

Module Regex.

Inductive Regex :=
  | Never
  | Eps
  | Class (P : ascii -> bool)
  | Cat (r1 r2 : Regex)
  | Alt (r1 r2 : Regex)
  | Star (r : Regex).

(** [r+] *)
Definition Plus (r : Regex) : Regex := Cat r (Star r).

(** A literal character and a literal text. *)
Definition Chr (c : ascii) : Regex := Class (Ascii.eqb c).

Fixpoint Lit (s : string) : Regex :=
  match s with
  | EmptyString => Eps
  | String c s' => Cat (Chr c) (Lit s')
  end.

(** [r{n}] *)
Fixpoint Repeat (n : nat) (r : Regex) : Regex :=
  match n with
  | O => Eps
  | S n' => Cat r (Repeat n' r)
  end.

Fixpoint nullable (r : Regex) : bool :=
  match r with
  | Never => false
  | Eps => true
  | Class _ => false
  | Cat r1 r2 => nullable r1 && nullable r2
  | Alt r1 r2 => nullable r1 || nullable r2
  | Star _ => true
  end.

Fixpoint deriv (c : ascii) (r : Regex) : Regex :=
  match r with
  | Never => Never
  | Eps => Never
  | Class P => if P c then Eps else Never
  | Cat r1 r2 =>
      if nullable r1
      then Alt (Cat (deriv c r1) r2) (deriv c r2)
      else Cat (deriv c r1) r2
  | Alt r1 r2 => Alt (deriv c r1) (deriv c r2)
  | Star r1 => Cat (deriv c r1) (Star r1)
  end.

Fixpoint matches (r : Regex) (s : string) : bool :=
  match s with
  | EmptyString => nullable r
  | String c s' => matches (deriv c r) s'
  end.

Inductive Lang : Regex -> string -> Prop :=
  | LEps : Lang Eps EmptyString
  | LClass P c : P c = true -> Lang (Class P) (String c EmptyString)
  | LCat r1 r2 s1 s2 : Lang r1 s1 -> Lang r2 s2 -> Lang (Cat r1 r2) (s1 +:+ s2)
  | LAltL r1 r2 s : Lang r1 s -> Lang (Alt r1 r2) s
  | LAltR r1 r2 s : Lang r2 s -> Lang (Alt r1 r2) s
  | LStarNil r : Lang (Star r) EmptyString
  | LStarCons r s1 s2 :
      Lang r s1 -> Lang (Star r) s2 -> Lang (Star r) (s1 +:+ s2).

End Regex.

(** ** [src/utils/constants.ts]: [VALIDATION] and [FILE_UPLOAD] *)

(** [\s] on ASCII text: tab, line feed, vertical tab, form feed, carriage
    return and space.  (Outside ASCII the class has further members, such as
    the no-break space, which this definition does not have.) *)
Definition isSpace (c : ascii) : bool :=
  let n := nat_of_ascii c in
  (Nat.leb 9 n && Nat.leb n 13 || Nat.eqb n 32)%bool.

Module VALIDATION.

(** [[^\s@]] *)
Definition notSpaceNorAt (c : ascii) : bool :=
  negb (isSpace c) && negb (Ascii.eqb c "@").

(** [/^[^\s@]+@[^\s@]+\.[^\s@]+$/] *)
Definition EMAIL_REGEX : Regex.Regex :=
  Regex.Cat (Regex.Plus (Regex.Class notSpaceNorAt))
    (Regex.Cat (Regex.Chr "@")
       (Regex.Cat (Regex.Plus (Regex.Class notSpaceNorAt))
          (Regex.Cat (Regex.Chr ".")
             (Regex.Plus (Regex.Class notSpaceNorAt))))).

(** [[67]] *)
Definition is6or7 (c : ascii) : bool := Ascii.eqb c "6" || Ascii.eqb c "7".

(** [/^(\+255|0)[67]\d{8}$/] *)
Definition PHONE_REGEX : Regex.Regex :=
  Regex.Cat (Regex.Alt (Regex.Lit "+255") (Regex.Lit "0"))
    (Regex.Cat (Regex.Class is6or7) (Regex.Repeat 8 (Regex.Class isDigit))).

Definition PASSWORD_MIN_LENGTH : Z := 6.
Definition TITLE_MAX_LENGTH : Z := 100.
Definition DESCRIPTION_MAX_LENGTH : Z := 1000.

End VALIDATION.

(** ** [src/utils/validators.ts]

    A validator returns an error message or [null] ([None]).  A form field
    read from the [any]-typed form data is a string or [undefined]. *)

Module Validators.

(** [s.length]; on ASCII text the number of characters. *)
Definition strlen (s : string) : Z := Z.of_nat (String.length s).

(** [s.replace(/\s/g, '')] *)
Fixpoint removeSpaces (s : string) : string :=
  match s with
  | EmptyString => EmptyString
  | String c s' => if isSpace c then removeSpaces s' else String c (removeSpaces s')
  end.

Fixpoint trimStart (s : string) : string :=
  match s with
  | EmptyString => EmptyString
  | String c s' => if isSpace c then trimStart s' else s
  end.

(** Drops the white space at the end: the result is empty when nothing but
    white space follows. *)
Fixpoint trimEnd (s : string) : string :=
  match s with
  | EmptyString => EmptyString
  | String c s' =>
      match trimEnd s' with
      | EmptyString => if isSpace c then EmptyString else String c EmptyString
      | t => String c t
      end
  end.

(** [s.trim()] *)
Definition trim (s : string) : string := trimEnd (trimStart s).

(** [a || b] on validator results. *)
Definition orElse (a b : option string) : option string :=
  match a with
  | Some e => Some e
  | None => b
  end.

Definition validateEmail (email : option string) : option string :=
  match email with
  | None | Some EmptyString => Some "Email is required"
  | Some e =>
      if negb (Regex.matches VALIDATION.EMAIL_REGEX e)
      then Some "Please enter a valid email address"
      else None
  end.

Definition validatePassword (password : option string) : option string :=
  match password with
  | None | Some EmptyString => Some "Password is required"
  | Some p =>
      if (strlen p <? VALIDATION.PASSWORD_MIN_LENGTH)%Z
      then Some ("Password must be at least "
                 +:+ pretty VALIDATION.PASSWORD_MIN_LENGTH +:+ " characters")
      else None
  end.

Definition validatePhoneNumber (phone : option string) : option string :=
  match phone with
  | None | Some EmptyString => Some "Phone number is required"
  | Some p =>
      let cleaned := removeSpaces p in
      if negb (Regex.matches VALIDATION.PHONE_REGEX cleaned)
      then Some "Please enter a valid Tanzanian phone number (e.g., 0712345678)"
      else None
  end.

Definition validateRequired (value : option string) (fieldName : string)
    : option string :=
  match value with
  | None | Some EmptyString => Some (fieldName +:+ " is required")
  | Some v =>
      if (strlen (trim v) =? 0)%Z then Some (fieldName +:+ " is required")
      else None
  end.

(** [minLength] and [maxLength] are optional numbers; a bound is applied
    when it is truthy.  The first violated bound gives the message. *)
Definition validateLength (value fieldName : string)
    (minLength maxLength : option Z) : option string :=
  let tooShort :=
    match minLength with
    | Some m =>
        if Js.truthy_number m && (strlen value <? m)%Z
        then Some (fieldName +:+ " must be at least " +:+ pretty m
                   +:+ " characters")
        else None
    | None => None
    end in
  let tooLong :=
    match maxLength with
    | Some mx =>
        if Js.truthy_number mx && (strlen value >? mx)%Z
        then Some (fieldName +:+ " must be no more than " +:+ pretty mx
                   +:+ " characters")
        else None
    | None => None
    end in
  orElse tooShort tooLong.

(** The registration form data, as read by [validateRegistrationForm]. *)
Record RegistrationData := {
  fullName : option string;
  email : option string;
  password : option string;
  phoneNumber : option string;
  userRole : option string
}.

(** [if (e) errors.key = e]: the error object keeps its keys in insertion
    order. *)
Definition setError (key : string) (e : option string)
    (errors : list (string * string)) : list (string * string) :=
  match e with
  | Some msg => errors ++ [(key, msg)]
  | None => errors
  end.

Definition validateRegistrationForm (d : RegistrationData)
    : list (string * string) :=
  let errors := [] in
  let nameError :=
    orElse (validateRequired (fullName d) "Full name")
           (validateLength (default "" (fullName d)) "Full name" (Some 2) (Some 50)) in
  let errors := setError "fullName" nameError errors in
  let errors := setError "email" (validateEmail (email d)) errors in
  let errors := setError "password" (validatePassword (password d)) errors in
  let errors := setError "phoneNumber" (validatePhoneNumber (phoneNumber d)) errors in
  let errors :=
    match userRole d with
    | None | Some EmptyString =>
        errors ++ [("userRole", "Please select a valid user role")]
    | Some role =>
        if negb (String.eqb role "tenant" || String.eqb role "landlord")
        then errors ++ [("userRole", "Please select a valid user role")]
        else errors
    end in
  errors.

(** [Object.keys(errors).length > 0] *)
Definition hasErrors (errors : list (string * string)) : bool :=
  match errors with
  | [] => false
  | _ :: _ => true
  end.

(** [keys.length > 0 ? errors[keys[0]] : null] *)
Definition getFirstError (errors : list (string * string)) : option string :=
  match errors with
  | [] => None
  | (_, msg) :: _ => Some msg
  end.

End Validators.

(** ** The domain on which the model is exact *)

(** ASCII text: every character is below 128. *)
Definition isAscii (s : string) : bool :=
  allChars (fun c => Nat.ltb (nat_of_ascii c) 128) s.

(** Plain text: ASCII letters, digits and spaces. *)
Definition isPlain (c : ascii) : bool :=
  let n := nat_of_ascii c in
  (isDigit c || (Nat.leb 65 n && Nat.leb n 90) || (Nat.leb 97 n && Nat.leb n 122)
   || Nat.eqb n 32)%bool.

Definition plainText (s : string) : bool := allChars isPlain s.

(** The values of the [property_type] column: the five names of the
    enumeration. *)
Definition isPropertyTypeName (t : string) : bool :=
  existsb (fun k => String.eqb t (propertyType_string k))
    [house; apartment; studio; villa; room].

(** The largest integer up to which adding 1 to a double is exact. *)
Definition MAX_SAFE : Z := 2 ^ 53.

(** Every field of the registration form that is present is ASCII text. *)
Definition asciiForm (d : Validators.RegistrationData) : bool :=
  from_option isAscii true (Validators.fullName d) &&
  from_option isAscii true (Validators.email d) &&
  from_option isAscii true (Validators.password d) &&
  from_option isAscii true (Validators.phoneNumber d) &&
  from_option isAscii true (Validators.userRole d).

(** ** Combining filter objects

    [mergeFilters f g] is the object [{...g, ...f}]: each property is taken
    from [f] when [f] has it, else from [g].  Two filter objects are
    disjoint when no criterion of the filter evaluator is present in
    both. *)

Definition orProperty {A : Type} (a b : option A) : option A :=
  match a with
  | Some v => Some v
  | None => b
  end.

Definition mergeFilters (f g : SF.SearchFilters) : SF.SearchFilters :=
  {| SF.location := orProperty (SF.location f) (SF.location g);
     SF.city := orProperty (SF.city f) (SF.city g);
     SF.priceMin := orProperty (SF.priceMin f) (SF.priceMin g);
     SF.priceMax := orProperty (SF.priceMax f) (SF.priceMax g);
     SF.propertyType := orProperty (SF.propertyType f) (SF.propertyType g);
     SF.bedrooms := orProperty (SF.bedrooms f) (SF.bedrooms g);
     SF.bathrooms := orProperty (SF.bathrooms f) (SF.bathrooms g);
     SF.search := orProperty (SF.search f) (SF.search g);
     SF.limit := orProperty (SF.limit f) (SF.limit g);
     SF.offset := orProperty (SF.offset f) (SF.offset g) |}.

Definition absentInOne {A : Type} (a b : option A) : bool :=
  match a, b with
  | Some _, Some _ => false
  | _, _ => true
  end.

Definition disjointFilters (f g : SF.SearchFilters) : bool :=
  absentInOne (SF.location f) (SF.location g) &&
  absentInOne (SF.priceMin f) (SF.priceMin g) &&
  absentInOne (SF.priceMax f) (SF.priceMax g) &&
  absentInOne (SF.propertyType f) (SF.propertyType g) &&
  absentInOne (SF.bedrooms f) (SF.bedrooms g) &&
  absentInOne (SF.bathrooms f) (SF.bathrooms g).

(** ** The retry option in force for queries and for mutations

    The [retry] option of a query or mutation is a boolean, a number of
    retries or a function.  The option in force is the one given to the
    hook, else the one in the client's [defaultOptions], else the library's
    own: three retries for a query, none for a mutation.  No hook of
    [useProperties.ts] passes a [retry] option, and [defaultOptions]
    ([src/main.tsx], lines 41-53) has a [queries] entry only. *)

Inductive RetryOption :=
  | RetryBool (b : bool)
  | RetryCount (n : Z)
  | RetryFn (f : Z -> QueryError -> bool).

Definition shouldRetry (o : RetryOption) (failureCount : Z) (e : QueryError)
    : bool :=
  match o with
  | RetryBool b => b
  | RetryCount n => (failureCount <? n)%Z
  | RetryFn f => f failureCount e
  end.

Record DefaultOptions := {
  queries_retry : option RetryOption;
  mutations_retry : option RetryOption
}.

Definition defaultOptions : DefaultOptions :=
  {| queries_retry := Some (RetryFn retry); mutations_retry := None |}.

(** The [retry] option that the hooks pass: none. *)
Definition hook_retry : option RetryOption := None.

Definition queryRetry : RetryOption :=
  default (RetryCount 3) (orProperty hook_retry (queries_retry defaultOptions)).

Definition mutationRetry : RetryOption :=
  default (RetryCount 0) (orProperty hook_retry (mutations_retry defaultOptions)).

(** The retry loop with a given option: [fetchWithRetry] is this loop with
    the function [retry]. *)
Fixpoint runWithRetry {A : Type} (o : RetryOption) (failureCount : Z)
    (attempts : list (Attempt A)) : nat * option (Attempt A) :=
  match attempts with
  | [] => (0%nat, None)
  | Succeeds a :: _ => (1%nat, Some (Succeeds a))
  | Fails e :: rest =>
      if shouldRetry o failureCount e
      then let r := runWithRetry o (failureCount + 1) rest in (S (fst r), snd r)
      else (1%nat, Some (Fails e))
  end.

(** * Properties *)

(** ** The filter evaluator *)

Section FilterFacts.

Implicit Types (P : list Property) (p : Property) (f : SF.SearchFilters).

Lemma filter_all_true {A : Type} (l : list A) :
  List.filter (fun _ => true) l = l.
Proof. induction l as [|x l IH]; simpl; [reflexivity | now rewrite IH]. Qed.

Lemma filter_filter_andb {A : Type} (g h : A -> bool) (l : list A) :
  List.filter h (List.filter g l) = List.filter (fun x => g x && h x) l.
Proof.
  induction l as [|x l IH]; simpl; [reflexivity|].
  destruct (g x); simpl; [destruct (h x)|]; now rewrite IH.
Qed.

Lemma whenTruthy_filter {A : Type} (truthy : A -> bool) (o : option A)
    (keep : A -> Property -> bool) P :
  whenTruthy truthy o keep P = List.filter (criterion truthy o keep) P.
Proof.
  unfold whenTruthy, criterion.
  destruct o as [v|]; [destruct (truthy v)|];
    first [reflexivity | symmetry; apply filter_all_true].
Qed.

(** [applyFilters] keeps exactly the properties that satisfy every
    criterion, in the order of the input. *)
Lemma applyFilters_filter P f :
  applyFilters P f = List.filter (satisfies f) P.
Proof.
  unfold applyFilters, satisfies.
  rewrite !whenTruthy_filter, !filter_filter_andb.
  apply List.filter_ext; intros p.
  now rewrite !andb_assoc.
Qed.

Lemma filter_sublist {A : Type} (g : A -> bool) (l : list A) :
  sublist (List.filter g l) l.
Proof.
  induction l as [|x l IH]; simpl.
  - constructor.
  - destruct (g x); [apply sublist_skip | apply sublist_cons]; exact IH.
Qed.

Lemma elem_of_bool_filter {A : Type} (g : A -> bool) (l : list A) (x : A) :
  x ∈ List.filter g l <-> x ∈ l /\ g x = true.
Proof. rewrite !list_elem_of_In. apply filter_In. Qed.

End FilterFacts.

(** C3. The filter [{location: "Dar", priceMax: 600000}] applied to the
    nine-entry mock dataset in fallback mode returns exactly the properties
    with ids "2" (Mikocheni, 550000) and "8" (Temeke, 180000), in their
    original relative order. *)
Theorem fallback_Dar_600000 (Date_now : Z) (toISOString : Z -> string) :
  let filters :=
    SF.with_priceMax (Some 600000) (SF.with_location (Some "Dar") SF.empty) in
  let result := useProperties_fallback Date_now toISOString filters in
  length (mockProperties Date_now toISOString) = 9%nat /\
  result = [mock2 Date_now toISOString; mock8 Date_now toISOString] /\
  map id result = ["2"; "8"] /\
  map (fun p => (district (location p), priceMonthly p)) result
    = [("Mikocheni", 550000); ("Temeke", 180000)] /\
  sublist result (mockProperties Date_now toISOString).
Proof.
  intros filters result.
  assert (Hres : result = [mock2 Date_now toISOString; mock8 Date_now toISOString]).
  { unfold result, useProperties_fallback.
    rewrite applyFilters_filter. unfold mockProperties.
    cbn [List.filter].
    repeat match goal with
    | |- context [satisfies filters ?p] =>
        let b := eval vm_compute in (satisfies filters p) in
        replace (satisfies filters p) with b by (vm_compute; reflexivity)
    end.
    reflexivity. }
  split; [reflexivity|].
  split; [exact Hres|].
  split; [rewrite Hres; reflexivity|].
  split; [rewrite Hres; reflexivity|].
  unfold result, useProperties_fallback.
  rewrite applyFilters_filter. apply filter_sublist.
Qed.

(** C4. With the empty filter object the evaluator returns its input
    unchanged, for every input sequence; a string criterion that is the
    empty string is treated as unset: it imposes the same (no) constraint as
    an absent one, whatever the other criteria are. *)
Theorem empty_filters_identity (P : list Property) :
  applyFilters P SF.empty = P /\
  applyFilters P (SF.with_location (Some "") SF.empty) = P /\
  applyFilters P (SF.with_propertyType (Some "") SF.empty) = P /\
  (forall f, applyFilters P (SF.with_location (Some "") f)
             = applyFilters P (SF.with_location None f)) /\
  (forall f, applyFilters P (SF.with_propertyType (Some "") f)
             = applyFilters P (SF.with_propertyType None f)).
Proof.
  repeat split; try reflexivity.
Qed.

(** The [priceMin]/[bedrooms] pair, for all bound values: filtering with
    [priceMin] and [bedrooms] together yields exactly
    the properties that both single-criterion results contain (AND
    semantics), it is the second criterion applied to the result of the
    first, and every result of the evaluator is a subsequence of its input
    in the input's order. *)
Theorem combined_filters_intersect (P : list Property) (a b : Z) :
  let f1 := SF.with_priceMin (Some a) SF.empty in
  let f2 := SF.with_bedrooms (Some b) SF.empty in
  let f12 := SF.with_bedrooms (Some b) (SF.with_priceMin (Some a) SF.empty) in
  (forall p, p ∈ applyFilters P f12 <->
             p ∈ applyFilters P f1 /\ p ∈ applyFilters P f2) /\
  applyFilters P f12 = applyFilters (applyFilters P f1) f2 /\
  applyFilters P f12
    = List.filter (fun p => satisfies f1 p && satisfies f2 p) P /\
  (forall f, sublist (applyFilters P f) P).
Proof.
  intros f1 f2 f12.
  assert (Hsat : forall p, satisfies f12 p = satisfies f1 p && satisfies f2 p).
  { intros p. unfold satisfies, f1, f2, f12; simpl.
    rewrite !andb_true_r. reflexivity. }
  split.
  { intros p. rewrite !applyFilters_filter, !elem_of_bool_filter, Hsat.
    rewrite andb_true_iff. tauto. }
  split.
  { rewrite !applyFilters_filter, filter_filter_andb.
    apply List.filter_ext. exact Hsat. }
  split.
  { rewrite applyFilters_filter. apply List.filter_ext. exact Hsat. }
  intros f. rewrite applyFilters_filter. apply filter_sublist.
Qed.

Lemma criterion_orProperty {A : Type} (truthy : A -> bool) (a b : option A)
    (keep : A -> Property -> bool) (p : Property) :
  absentInOne a b = true ->
  criterion truthy (orProperty a b) keep p
  = criterion truthy a keep p && criterion truthy b keep p.
Proof.
  destruct a as [v|], b as [w|]; simpl; try discriminate; intros _.
  - now rewrite andb_true_r.
  - reflexivity.
  - reflexivity.
Qed.

Lemma andb_interchange (a b c d : bool) :
  (a && b) && (c && d) = (a && c) && (b && d).
Proof. destruct a, b, c, d; reflexivity. Qed.

(** A merged filter object of two disjoint ones is satisfied exactly by the
    properties that satisfy both. *)
Lemma satisfies_mergeFilters (f g : SF.SearchFilters) (p : Property) :
  disjointFilters f g = true ->
  satisfies (mergeFilters f g) p = satisfies f p && satisfies g p.
Proof.
  unfold disjointFilters. rewrite !andb_true_iff.
  intros (((((H1 & H2) & H3) & H4) & H5) & H6).
  unfold satisfies, mergeFilters; simpl.
  rewrite !criterion_orProperty by assumption.
  rewrite (andb_interchange (criterion _ (SF.location f) _ p)).
  rewrite (andb_interchange (criterion _ (SF.location f) _ p && _)).
  rewrite (andb_interchange (criterion _ (SF.location f) _ p && _ && _)).
  rewrite (andb_interchange (criterion _ (SF.location f) _ p && _ && _ && _)).
  rewrite (andb_interchange (criterion _ (SF.location f) _ p && _ && _ && _ && _)).
  reflexivity.
Qed.

(** C5. Criteria combine with AND: when two filter objects have no
    criterion in common, filtering with both together (the merged object)
    yields exactly the properties that the results of each of them contain,
    that is the intersection of the two results, and it is the second
    applied to the result of the first; every result of the evaluator is a
    subsequence of its input in the input's order. *)
Theorem disjoint_filters_intersect (P : list Property) (f g : SF.SearchFilters) :
  disjointFilters f g = true ->
  (forall p, p ∈ applyFilters P (mergeFilters f g) <->
             p ∈ applyFilters P f /\ p ∈ applyFilters P g) /\
  applyFilters P (mergeFilters f g) = applyFilters (applyFilters P f) g /\
  applyFilters P (mergeFilters f g)
    = List.filter (fun p => satisfies f p && satisfies g p) P /\
  (forall h, sublist (applyFilters P h) P).
Proof.
  intros Hd.
  assert (Hsat : forall p,
            satisfies (mergeFilters f g) p = satisfies f p && satisfies g p)
    by (intros p; now apply satisfies_mergeFilters).
  split.
  { intros p. rewrite !applyFilters_filter, !elem_of_bool_filter, Hsat.
    rewrite andb_true_iff. tauto. }
  split.
  { rewrite !applyFilters_filter, filter_filter_andb.
    apply List.filter_ext. exact Hsat. }
  split.
  { rewrite applyFilters_filter. apply List.filter_ext. exact Hsat. }
  intros h. rewrite applyFilters_filter. apply filter_sublist.
Qed.

Lemma disjoint_filters_intersect_witness :
  let P := mockProperties 0 (fun _ => "") in
  let f := SF.with_priceMin (Some 500000) SF.empty in
  let g := SF.with_bedrooms (Some 2) SF.empty in
  disjointFilters f g = true /\
  mergeFilters f g
    = SF.with_bedrooms (Some 2) (SF.with_priceMin (Some 500000) SF.empty) /\
  (forall p, p ∈ applyFilters P (mergeFilters f g) <->
             p ∈ applyFilters P f /\ p ∈ applyFilters P g) /\
  applyFilters P (mergeFilters f g) = applyFilters (applyFilters P f) g /\
  applyFilters P (mergeFilters f g)
    = List.filter (fun p => satisfies f p && satisfies g p) P /\
  (forall h, sublist (applyFilters P h) P).
Proof.
  intros P f g.
  split; [reflexivity|]. split; [reflexivity|].
  apply (disjoint_filters_intersect P f g). reflexivity.
Defined.

(** C10. In fallback mode a numeric filter value of [0] is treated as
    unset: [{priceMax: 0}] returns the whole list, although an inclusive
    upper bound of [0] keeps none of the mock properties; [priceMin: 0],
    [bedrooms: 0] and [bathrooms: 0] impose no constraint either, whatever
    the other criteria are. *)
Theorem zero_bound_is_unset (P : list Property) :
  applyFilters P (SF.with_priceMax (Some 0) SF.empty) = P /\
  applyFilters P (SF.with_priceMin (Some 0) SF.empty) = P /\
  applyFilters P (SF.with_bedrooms (Some 0) SF.empty) = P /\
  applyFilters P (SF.with_bathrooms (Some 0) SF.empty) = P /\
  (forall f, applyFilters P (SF.with_priceMax (Some 0) f)
             = applyFilters P (SF.with_priceMax None f)) /\
  (forall f, applyFilters P (SF.with_priceMin (Some 0) f)
             = applyFilters P (SF.with_priceMin None f)) /\
  (forall f, applyFilters P (SF.with_bedrooms (Some 0) f)
             = applyFilters P (SF.with_bedrooms None f)) /\
  (forall f, applyFilters P (SF.with_bathrooms (Some 0) f)
             = applyFilters P (SF.with_bathrooms None f)) /\
  (forall Date_now toISOString,
     forallb (fun p => (0 <? priceMonthly p)%Z)
       (mockProperties Date_now toISOString) = true /\
     List.filter (keep_priceMax 0) (mockProperties Date_now toISOString) = [] /\
     useProperties_fallback Date_now toISOString
       (SF.with_priceMax (Some 0) SF.empty)
       = mockProperties Date_now toISOString).
Proof.
  repeat split; reflexivity.
Qed.

(** ** Normalisation *)

Section NormalisationFacts.

Import Untyped.

Implicit Types (r : gmap string JsVal).

Lemma get_insert_eq r name v : get (<[name := v]> r) name = v.
Proof. unfold get. now rewrite lookup_insert_eq. Qed.

Lemma get_insert_ne r name name' v :
  name <> name' -> get (<[name := v]> r) name' = get r name'.
Proof. intros Hne. unfold get. now rewrite lookup_insert_ne. Qed.

Lemma get_delete_eq r name : get (delete name r) name = JUndefined.
Proof. unfold get. now rewrite lookup_delete_eq. Qed.

(** A falsy [images] property is replaced by the placeholder list, a truthy
    one is kept as it is; both variants read [images] the same way. *)
Lemma images_of_convert r :
  images (convertDbPropertyToAppProperty r)
    = js_or (get r "images") (JArr [JStr placeholder]) /\
  images (HomePage_convertDbPropertyToAppProperty r)
    = js_or (get r "images") (JArr [JStr placeholder]).
Proof. split; reflexivity. Qed.

(** Missing images ([null] or absent) become the one-element placeholder
    list, in both variants. *)
Lemma missing_images_placeholder r :
  images (convertDbPropertyToAppProperty (<["images" := JNull]> r))
    = JArr [JStr placeholder] /\
  images (convertDbPropertyToAppProperty (delete "images" r))
    = JArr [JStr placeholder] /\
  images (HomePage_convertDbPropertyToAppProperty (<["images" := JNull]> r))
    = JArr [JStr placeholder] /\
  images (HomePage_convertDbPropertyToAppProperty (delete "images" r))
    = JArr [JStr placeholder].
Proof.
  repeat split; simpl;
    rewrite ?get_insert_eq, ?get_delete_eq; reflexivity.
Qed.

(** Missing amenities ([null] or absent) become the empty list, in both
    variants. *)
Lemma missing_amenities_empty r :
  amenities (convertDbPropertyToAppProperty (<["amenities" := JNull]> r))
    = JArr [] /\
  amenities (convertDbPropertyToAppProperty (delete "amenities" r))
    = JArr [] /\
  amenities (HomePage_convertDbPropertyToAppProperty (<["amenities" := JNull]> r))
    = JArr [] /\
  amenities (HomePage_convertDbPropertyToAppProperty (delete "amenities" r))
    = JArr [].
Proof.
  repeat split; simpl;
    rewrite ?get_insert_eq, ?get_delete_eq; reflexivity.
Qed.

(** The variant of the hooks file reads [price_monthly]: on a record in the
    [monthly_rent] convention its [priceMonthly] is [undefined]. *)
Lemma hooks_variant_reads_price_monthly :
  priceMonthly (convertDbPropertyToAppProperty scenario_record) = JUndefined.
Proof. vm_compute. reflexivity. Qed.

(** The HomePage variant, which reads the [monthly_rent] convention,
    normalises the raw record [{monthly_rent: 800000, is_available: true,
    images: null, amenities: null}] to a property with
    [priceMonthly = 800000], [status = 'available'], [images] the
    one-element placeholder list and [amenities] the empty list. *)
Theorem normalise_scenario_record :
  let p := HomePage_convertDbPropertyToAppProperty scenario_record in
  priceMonthly p = JNum 800000 /\
  status_string (status p) = "available" /\
  images p = JArr [JStr "https://images.pexels.com/photos/106399/pexels-photo-106399.jpeg"] /\
  amenities p = JArr [].
Proof. vm_compute. repeat split; reflexivity. Qed.

(** C1 (the code at the failing input). The conversion of the hooks file,
    the one applied to the rows that the backend returns, reads
    [price_monthly]: on the scenario record
    [{monthly_rent: 800000, is_available: true, images: null,
    amenities: null}], which is in the [monthly_rent] convention of the
    declared row type, it gives [priceMonthly = undefined], not 800000.
    Status, images and amenities are as the scenario says, and the HomePage
    variant does read the price. *)
Theorem scenario_record_price_undefined :
  let p := convertDbPropertyToAppProperty scenario_record in
  priceMonthly p = JUndefined /\
  priceMonthly p <> JNum 800000 /\
  status_string (status p) = "available" /\
  images p = JArr [JStr "https://images.pexels.com/photos/106399/pexels-photo-106399.jpeg"] /\
  amenities p = JArr [] /\
  priceMonthly (HomePage_convertDbPropertyToAppProperty scenario_record)
    = JNum 800000.
Proof. vm_compute. repeat split; try reflexivity. discriminate. Qed.

(** C6 (the code at the failing input). A raw record whose [images] is the
    empty array is normalised, by either variant, to a property whose
    [images] is still the empty array: the placeholder is not substituted. *)
Theorem empty_images_array_kept r :
  images (convertDbPropertyToAppProperty (<["images" := JArr []]> r)) = JArr [] /\
  images (HomePage_convertDbPropertyToAppProperty (<["images" := JArr []]> r))
    = JArr [] /\
  nonEmptyArray
    (images (HomePage_convertDbPropertyToAppProperty (<["images" := JArr []]> ∅)))
    = false.
Proof.
  repeat split; simpl; rewrite ?get_insert_eq; reflexivity.
Qed.

End NormalisationFacts.

(** ** The two data-source modes *)

(** C7 (the code at the failing inputs). For the filter
    [{location: "Dar"}] the fallback branch rejects a Mwanza property while
    the query that [db.properties.getAll] builds for the same filter object
    accepts its row: the remote reader looks for [city], which the object
    does not have.  A [search] text is applied by the remote query only,
    and the remote query alone requires [is_available]. *)
Theorem modes_filter_differently (created : string)
    (Date_now : Z) (toISOString : Z -> string) :
  let byLocation := SF.with_location (Some "Dar") SF.empty in
  let bySearch := SF.with_search (Some "villa") SF.empty in
  let row := Db.seed4 created in
  let rentedRow := Db.with_is_available false row in
  (fallbackKeeps byLocation (HomePage_convertRow row) = false /\
   fallbackKeeps byLocation (mock4 Date_now toISOString) = false /\
   Db.matches (Db.getAll byLocation) row = true) /\
  (fallbackKeeps bySearch (HomePage_convertRow row) = true /\
   Db.matches (Db.getAll bySearch) row = false) /\
  (fallbackKeeps SF.empty (HomePage_convertRow rentedRow) = true /\
   Db.matches (Db.getAll SF.empty) rentedRow = false).
Proof.
  intros byLocation bySearch row rentedRow.
  repeat split; vm_compute; reflexivity.
Qed.

(** The filters of the remote query for [{city: "Dar", search: "villa"}],
    as built. *)
Example getAll_city_search :
  Db.filters (Db.getAll (SF.with_search (Some "villa")
                           (SF.with_city (Some "Dar") SF.empty)))
  = [Db.EqBool "is_available" true;
     Db.Ilike "city" "%Dar%";
     Db.OrIlike [("title", "%villa%"); ("description", "%villa%");
                 ("city", "%villa%"); ("area", "%villa%")]].
Proof. reflexivity. Qed.

(** On the criteria that both readers take from the same properties of
    the filter object (price bounds, property type, bedroom and bathroom
    minimums), the remote query and the fallback branch agree on every
    available row. *)

Section SharedCriteria.

Implicit Types (q : Db.Query) (r : Db.Row) (f : SF.SearchFilters).

Lemma fallbackKeeps_satisfies f (p : Property) :
  fallbackKeeps f p = satisfies f p.
Proof.
  unfold fallbackKeeps. rewrite applyFilters_filter. simpl.
  destruct (satisfies f p); reflexivity.
Qed.

Lemma matches_addFilter x q r :
  Db.matches (Db.addFilter x q) r = Db.matches q r && Db.holds r x.
Proof.
  unfold Db.matches, Db.addFilter; simpl.
  rewrite forallb_app; simpl. now rewrite andb_true_r.
Qed.

Lemma matches_whenTruthy_addFilter {A : Type} (truthy : A -> bool)
    (o : option A) (mk : A -> Db.Filter) q r :
  Db.matches (Db.whenTruthy truthy o (fun v => Db.addFilter (mk v)) q) r
  = Db.matches q r &&
    match o with
    | Some v => if truthy v then Db.holds r (mk v) else true
    | None => true
    end.
Proof.
  destruct o as [v|]; simpl; [destruct (truthy v)|];
    rewrite ?matches_addFilter, ?andb_true_r; reflexivity.
Qed.

Lemma matches_whenTruthy_pagination {A : Type} (truthy : A -> bool)
    (o : option A) (step : A -> Db.Query -> Db.Query) q r :
  (forall v q', Db.filters (step v q') = Db.filters q') ->
  Db.matches (Db.whenTruthy truthy o step q) r = Db.matches q r.
Proof.
  intros Hstep. unfold Db.matches.
  destruct o as [v|]; simpl; [destruct (truthy v)|];
    rewrite ?Hstep; reflexivity.
Qed.

Lemma modes_agree_on_shared_criteria f r :
  SF.location f = None -> SF.city f = None -> SF.search f = None ->
  Db.is_available r = true ->
  Db.matches (Db.getAll f) r = fallbackKeeps f (HomePage_convertRow r).
Proof.
  intros Hloc Hcity Hsearch Havail.
  rewrite fallbackKeeps_satisfies.
  unfold Db.getAll.
  rewrite !matches_whenTruthy_pagination by reflexivity.
  rewrite !matches_whenTruthy_addFilter.
  unfold satisfies, criterion.
  rewrite Hloc, Hcity, Hsearch.
  unfold Db.matches; simpl. rewrite Havail; simpl.
  destruct (SF.priceMin f) as [a|]; [destruct (Js.truthy_number a)|];
  destruct (SF.priceMax f) as [b|]; [destruct (Js.truthy_number b)| | | | |];
  destruct (SF.propertyType f) as [t|];
  destruct (SF.bedrooms f) as [d|];
  destruct (SF.bathrooms f) as [e|];
  try destruct (Js.truthy_string t); try destruct (Js.truthy_number d);
  try destruct (Js.truthy_number e);
  simpl; rewrite ?andb_true_r; reflexivity.
Qed.

End SharedCriteria.

(** ** The query cache *)

Section CacheFacts.

Implicit Types (c : gmap (list KeyPart) QueryState) (k fk : list KeyPart).

Lemma lookup_invalidateQueries fk c k :
  invalidateQueries fk c !! k
  = (fun q => if partialMatchKey k fk then invalidate q else q) <$> (c !! k).
Proof.
  unfold invalidateQueries. rewrite map_lookup_imap.
  destruct (c !! k); reflexivity.
Qed.

Lemma lookup_removeQueries fk c k :
  removeQueries fk c !! k = if partialMatchKey k fk then None else c !! k.
Proof.
  unfold removeQueries.
  destruct (partialMatchKey k fk) eqn:Hm.
  - apply map_lookup_filter_None. right. intros q _. simpl. congruence.
  - destruct (c !! k) as [q|] eqn:Hk.
    + apply map_lookup_filter_Some. split; [exact Hk | exact Hm].
    + apply map_lookup_filter_None. left. exact Hk.
Qed.

Lemma partialMatchKey_app fk rest : partialMatchKey (fk ++ rest) fk = true.
Proof.
  induction fk as [|x fk IH]; simpl; [destruct rest; reflexivity|].
  rewrite bool_decide_eq_true_2 by reflexivity. exact IH.
Qed.

Lemma partialMatchKey_refl k : partialMatchKey k k = true.
Proof. rewrite <- (app_nil_r k) at 1. apply partialMatchKey_app. Qed.

Lemma mustRefetch_invalidated fk c k :
  partialMatchKey k fk = true -> mustRefetch (invalidateQueries fk c) k.
Proof.
  intros Hm. unfold mustRefetch. rewrite lookup_invalidateQueries, Hm.
  destruct (c !! k); simpl; [reflexivity | exact I].
Qed.

Lemma mustRefetch_preserved fk c k :
  mustRefetch c k -> mustRefetch (invalidateQueries fk c) k.
Proof.
  unfold mustRefetch. rewrite lookup_invalidateQueries.
  destruct (c !! k) as [q|]; simpl; [|trivial].
  intros Hq. destruct (partialMatchKey k fk); [reflexivity | exact Hq].
Qed.

(** A query that must be refetched is never served from the cache. *)
Lemma mustRefetch_not_served c k now staleTime :
  mustRefetch c k -> servedFromCache c k now staleTime = None.
Proof.
  unfold mustRefetch, servedFromCache.
  destruct (c !! k) as [q|]; [|reflexivity].
  intros ->. reflexivity.
Qed.

Lemma list_key_matches_lists (f : SF.SearchFilters) :
  partialMatchKey (PROPERTY_KEYS.list f) PROPERTY_KEYS.lists = true.
Proof. apply partialMatchKey_app. Qed.

Lemma byOwner_key_matches_all (o : string) :
  partialMatchKey (PROPERTY_KEYS.byOwner o) PROPERTY_KEYS.all = true.
Proof. apply partialMatchKey_app. Qed.

Lemma detail_key_not_lists (i : string) :
  partialMatchKey (PROPERTY_KEYS.detail i) PROPERTY_KEYS.lists = false.
Proof. reflexivity. Qed.

Lemma detail_key_not_byOwner (i o : string) :
  partialMatchKey (PROPERTY_KEYS.detail i) (PROPERTY_KEYS.byOwner o) = false.
Proof. reflexivity. Qed.

End CacheFacts.

(** ** Mutations and the cache *)

Section MutationFacts.

Context {DbRecord : Type} (convert : DbRecord -> Property).

Implicit Types (c : gmap (list KeyPart) QueryState) (st : ClientState).

(** Issuing a mutation does not touch the cache, and neither does a
    rejected [mutationFn]. *)
Lemma issued_cache_unchanged st :
  queries (useIncrementViews_issued st) = queries st.
Proof. reflexivity. Qed.

Lemma rejected_cache_unchanged now propertyId e st :
  queries (useIncrementViews_settled true now propertyId (ResponseError e) st)
  = queries st.
Proof. reflexivity. Qed.

(** After a successful update the detail query holds the authoritative
    response, fresh; list queries and the owner's query must be refetched. *)
Lemma update_cache_effects now (u : Property) c :
  let c' := updateProperty_onSuccess now u c in
  c' !! PROPERTY_KEYS.detail (id u)
    = Some {| data := DataProperty u; dataUpdatedAt := now;
              isInvalidated := false |} /\
  (forall f, mustRefetch c' (PROPERTY_KEYS.list f)) /\
  mustRefetch c' (PROPERTY_KEYS.byOwner (ownerId u)).
Proof.
  intros c'. unfold c', updateProperty_onSuccess.
  split; [|split].
  - rewrite !lookup_invalidateQueries.
    rewrite detail_key_not_byOwner, detail_key_not_lists.
    unfold setQueryData. rewrite lookup_insert_eq. reflexivity.
  - intros f. apply mustRefetch_preserved, mustRefetch_invalidated.
    apply list_key_matches_lists.
  - apply mustRefetch_invalidated, partialMatchKey_refl.
Qed.

(** After a successful delete the detail query is gone; list queries and
    every owner's query must be refetched. *)
Lemma delete_cache_effects (deletedId : string) c :
  let c' := deleteProperty_onSuccess deletedId c in
  c' !! PROPERTY_KEYS.detail deletedId = None /\
  (forall f, mustRefetch c' (PROPERTY_KEYS.list f)) /\
  (forall o, mustRefetch c' (PROPERTY_KEYS.byOwner o)).
Proof.
  intros c'. unfold c', deleteProperty_onSuccess.
  split; [|split].
  - rewrite !lookup_invalidateQueries, lookup_removeQueries.
    rewrite partialMatchKey_refl. reflexivity.
  - intros f. apply mustRefetch_preserved, mustRefetch_invalidated.
    apply list_key_matches_lists.
  - intros o. apply mustRefetch_invalidated, byOwner_key_matches_all.
Qed.

(** After a successful create list queries and the owner's query must be
    refetched; every detail query is left as it was. *)
Lemma create_cache_effects (n : Property) c :
  let c' := createProperty_onSuccess n c in
  (forall f, mustRefetch c' (PROPERTY_KEYS.list f)) /\
  mustRefetch c' (PROPERTY_KEYS.byOwner (ownerId n)) /\
  (forall i, c' !! PROPERTY_KEYS.detail i = c !! PROPERTY_KEYS.detail i).
Proof.
  intros c'. unfold c', createProperty_onSuccess.
  split; [|split].
  - intros f. apply mustRefetch_preserved, mustRefetch_invalidated.
    apply list_key_matches_lists.
  - apply mustRefetch_invalidated, partialMatchKey_refl.
  - intros i. rewrite !lookup_invalidateQueries.
    rewrite detail_key_not_byOwner, detail_key_not_lists.
    destruct (c !! PROPERTY_KEYS.detail i); reflexivity.
Qed.

(** C8 (amended). After a successful update the detail key of the property
    holds the authoritative response and after a successful delete it is
    removed; after a successful create, update or delete every list key and
    the owner-scoped key of the affected owner (after a delete: of every
    owner) must be refetched, so a read of them is not served the data
    from before the mutation.  A successful create leaves the detail keys
    as they were. *)
Theorem successful_mutation_cache_effects
    (now : Z) (d : DbRecord) (deletedId : string) st :
  let created := queries (useCreateProperty true DbRecord convert (ResponseData d) st) in
  let updated := queries (useUpdateProperty true DbRecord convert now (ResponseData d) st) in
  let deleted := queries (useDeleteProperty true deletedId (ResponseData tt) st) in
  ((forall f, mustRefetch created (PROPERTY_KEYS.list f)) /\
   mustRefetch created (PROPERTY_KEYS.byOwner (ownerId (convert d))) /\
   (forall i, created !! PROPERTY_KEYS.detail i
              = queries st !! PROPERTY_KEYS.detail i)) /\
  (updated !! PROPERTY_KEYS.detail (id (convert d))
     = Some {| data := DataProperty (convert d); dataUpdatedAt := now;
               isInvalidated := false |} /\
   servedFromCache updated (PROPERTY_KEYS.detail (id (convert d)))
     now (5 * 60 * 1000) = Some (DataProperty (convert d)) /\
   (forall f, mustRefetch updated (PROPERTY_KEYS.list f)) /\
   mustRefetch updated (PROPERTY_KEYS.byOwner (ownerId (convert d)))) /\
  (deleted !! PROPERTY_KEYS.detail deletedId = None /\
   (forall f, mustRefetch deleted (PROPERTY_KEYS.list f)) /\
   (forall o, mustRefetch deleted (PROPERTY_KEYS.byOwner o))).
Proof.
  intros created updated deleted.
  split; [|split].
  - apply (create_cache_effects (convert d)).
  - destruct (update_cache_effects now (convert d) (queries st))
      as (Hdetail & Hlists & Howner).
    change (queries (useUpdateProperty true DbRecord convert now (ResponseData d) st))
      with (updateProperty_onSuccess now (convert d) (queries st)) in updated.
    repeat split; [exact Hdetail | | exact Hlists | exact Howner].
    unfold servedFromCache, updated. rewrite Hdetail. simpl.
    rewrite Z.sub_diag. reflexivity.
  - apply (delete_cache_effects deletedId).
Qed.

End MutationFacts.

(** C8 (the claim as stated fails). The cache holds a fresh detail query
    for an id, recording the property as rented.  A property with that id
    is then created successfully, available: the detail key is neither
    invalidated nor overwritten, and a read of it is still served the
    record from before the mutation. *)
Lemma create_keeps_cached_detail :
  let row := Db.seed4 "2025-06-20T10:42:32.000Z" in
  let key := PROPERTY_KEYS.detail (Db.id row) in
  let old := HomePage_convertRow (Db.with_is_available false row) in
  let before :=
    {| queries := {[ key := {| data := DataProperty old; dataUpdatedAt := 1000;
                               isInvalidated := false |} ]};
       mutation := idle |} in
  let after := useCreateProperty true Db.Row HomePage_convertRow
                 (ResponseData row) before in
  mutation after = success /\
  id (HomePage_convertRow row) = Db.id row /\
  status (HomePage_convertRow row) = available /\
  status old = rented /\
  ~ mustRefetch (queries after) key /\
  servedFromCache (queries after) key 2000 (5 * 60 * 1000)
    = Some (DataProperty old).
Proof.
  intros row key old before after.
  assert (Hk : queries after !! key
               = Some {| data := DataProperty old; dataUpdatedAt := 1000;
                         isInvalidated := false |}).
  { destruct (create_cache_effects (HomePage_convertRow row) (queries before))
      as (_ & _ & Hd).
    change (queries after)
      with (createProperty_onSuccess (HomePage_convertRow row) (queries before)).
    unfold key. rewrite (Hd (Db.id row)).
    apply lookup_singleton_eq. }
  split; [reflexivity|]. split; [reflexivity|].
  split; [reflexivity|]. split; [reflexivity|]. split.
  - unfold mustRefetch. rewrite Hk. simpl. discriminate.
  - unfold servedFromCache. rewrite Hk. reflexivity.
Qed.

(** C2 (the code at the failing input). The cached detail record of
    property "1" shows [views = 0].  Right after the increment is issued
    the cache still shows 0; when the remote call fails it shows 0 for
    good; it shows 1 only once the remote call has answered successfully
    (or, without a configured backend, once the mutation function has
    returned). *)
Theorem views_incremented_on_success_only
    (Date_now : Z) (toISOString : Z -> string) (fetched now : Z) :
  let key := PROPERTY_KEYS.detail "1" in
  let st :=
    {| queries :=
         {[ key := {| data := DataProperty
                        (with_views (Some 0) (mock1 Date_now toISOString));
                      dataUpdatedAt := fetched; isInvalidated := false |} ]};
       mutation := idle |} in
  cachedViews (queries st) "1" = Some 0 /\
  cachedViews (queries (useIncrementViews_issued st)) "1" = Some 0 /\
  (forall e, cachedViews
     (queries (useIncrementViews_settled true now "1" (ResponseError e) st)) "1"
     = Some 0) /\
  cachedViews
    (queries (useIncrementViews_settled true now "1" (ResponseData tt) st)) "1"
    = Some 1 /\
  (forall r, cachedViews
     (queries (useIncrementViews_settled false now "1" r st)) "1" = Some 1).
Proof.
  intros key st.
  assert (H0 : cachedViews (queries st) "1" = Some 0).
  { unfold cachedViews, st; simpl. fold key.
    rewrite lookup_singleton_eq. reflexivity. }
  assert (H1 : cachedViews
            (incrementViews_onSuccess now "1" tt (queries st)) "1" = Some 1).
  { unfold cachedViews, incrementViews_onSuccess, setQueryData_with, st; simpl.
    fold key. rewrite lookup_singleton_eq. simpl.
    unfold setQueryData. rewrite lookup_insert_eq. reflexivity. }
  split; [exact H0|]. split; [exact H0|]. split; [intros e; exact H0|].
  split; [exact H1|]. intros r. exact H1.
Qed.

(** ** Retry policy *)

Lemma fetchWithRetry_bound {A : Type} (attempts : list (Attempt A)) :
  forall n : Z, (0 <= n)%Z ->
    (fst (fetchWithRetry n attempts) <= Z.to_nat (Z.max 1 (4 - n)))%nat.
Proof.
  induction attempts as [|a attempts IH]; intros n Hn; simpl.
  - lia.
  - destruct a as [v|e]; simpl; [lia|].
    unfold retry. destruct (is4xx e); simpl; [lia|].
    destruct (Z.ltb_spec n 3) as [Hlt|Hge]; simpl; [|lia].
    specialize (IH (n + 1)%Z ltac:(lia)). lia.
Qed.

(** C9 (the claim as stated fails). A query that fails with status 503 is
    run again by the client: with a second run that succeeds the caller
    gets the data and never sees the error; when every run fails the error
    surfaces after the fourth. *)
Lemma failed_query_is_retried :
  let e := {| error_status := Some 503 |} in
  retry 0 e = true /\
  fetchWithRetry 0 [Fails e; Succeeds tt] = (2%nat, Some (Succeeds tt)) /\
  fetchWithRetry (A := unit) 0 [Fails e; Fails e; Fails e; Fails e]
    = (4%nat, Some (Fails e)).
Proof. repeat split; reflexivity. Qed.

Lemma runWithRetry_queryRetry {A : Type} (attempts : list (Attempt A)) :
  forall n : Z, runWithRetry queryRetry n attempts = fetchWithRetry n attempts.
Proof.
  induction attempts as [|a attempts IH]; intros n; [reflexivity|].
  destruct a as [v|e]; [reflexivity|].
  simpl. now rewrite IH.
Qed.

(** C9 (amended). A remote mutation that fails is not retried: no hook and
    no client default gives mutations a retry option, so the error is
    surfaced after the single failed attempt.  A failing query is governed
    by the retry function of the client's default options: a failure whose
    status is 4xx is surfaced after the single failed attempt; any other
    failure is retried while fewer than three failures have occurred, so a
    query that keeps failing is surfaced after its fourth attempt, and no
    fetch takes more than four attempts. *)
Theorem request_retry_policy (A : Type) (e : QueryError)
    (more : list (Attempt A)) :
  (forall failures : nat,
     shouldRetry mutationRetry (Z.of_nat failures) e = false) /\
  runWithRetry mutationRetry 0 (Fails e :: more) = (1%nat, Some (Fails e)) /\
  (forall attempts : list (Attempt A),
     runWithRetry queryRetry 0 attempts = fetchWithRetry 0 attempts) /\
  (forall n, retry n e = negb (is4xx e) && (n <? 3)%Z) /\
  fetchWithRetry 0 (Fails e :: Fails e :: Fails e :: Fails e :: more)
    = ((if is4xx e then 1 else 4)%nat, Some (Fails e)) /\
  (forall attempts : list (Attempt A),
     (fst (fetchWithRetry 0 attempts) <= 4)%nat).
Proof.
  split; [|split; [|split; [|split; [|split]]]].
  - intros failures. unfold mutationRetry; simpl.
    destruct (Z.ltb_spec (Z.of_nat failures) 0); [lia | reflexivity].
  - reflexivity.
  - intros attempts. apply runWithRetry_queryRetry.
  - intros n. unfold retry. destruct (is4xx e); reflexivity.
  - simpl. unfold retry. destruct (is4xx e); reflexivity.
  - intros attempts.
    apply (fetchWithRetry_bound attempts 0%Z). lia.
Qed.

(** * Further properties of the modelled code *)

(** ** String primitives *)

Section StringFacts.

Lemma startsWith_spec (needle hay : string) :
  Js.startsWith needle hay = true <-> exists post, hay = needle +:+ post.
Proof.
  revert hay. induction needle as [|a n IH]; intros hay; simpl.
  - split; [intros _; exists hay; reflexivity | reflexivity].
  - destruct hay as [|b h]; simpl.
    + split; [discriminate | intros [post H]; discriminate].
    + rewrite andb_true_iff, IH, Ascii.eqb_eq. split.
      * intros [-> [post ->]]. exists post. reflexivity.
      * intros [post H]. injection H as -> ->. split; [reflexivity | eauto].
Qed.

(** [hay.includes(needle)] holds exactly when [needle] is a contiguous
    part of [hay]. *)
Lemma includes_spec (hay needle : string) :
  Js.includes hay needle = true <->
  exists pre post, hay = pre +:+ needle +:+ post.
Proof.
  induction hay as [|c h IH]; simpl.
  - rewrite orb_false_r, startsWith_spec. split.
    + intros [post H]. exists "", post. exact H.
    + intros [pre [post H]]. destruct pre; [eauto | discriminate].
  - rewrite orb_true_iff, startsWith_spec, IH. split.
    + intros [[post H] | [pre [post H]]].
      * exists "", post. exact H.
      * exists (String c pre), post. simpl. now rewrite H.
    + intros [pre [post H]]. destruct pre as [|c' pre]; simpl in H.
      * left. eauto.
      * right. injection H as -> ->. eauto.
Qed.

Lemma lower_ascii_idem (c : ascii) :
  Js.lower_ascii (Js.lower_ascii c) = Js.lower_ascii c.
Proof. destruct c as [[] [] [] [] [] [] [] []]; reflexivity. Qed.

Lemma toLowerCase_idem (s : string) :
  Js.toLowerCase (Js.toLowerCase s) = Js.toLowerCase s.
Proof.
  induction s as [|c s IH]; simpl; [reflexivity|].
  now rewrite lower_ascii_idem, IH.
Qed.

End StringFacts.

(** ** More on the filter evaluator *)

(** X1. On ASCII text the location criterion keeps a property exactly
    when the lower-cased filter text is a contiguous part of the
    lower-cased city; the letter case of the filter text does not matter. *)
Theorem keep_location_substring (loc : string) (p : Property) :
  isAscii loc = true -> isAscii (city (location p)) = true ->
  (keep_location loc p = true <->
   exists pre post,
     Js.toLowerCase (city (location p)) = pre +:+ Js.toLowerCase loc +:+ post) /\
  keep_location (Js.toLowerCase loc) p = keep_location loc p.
Proof.
  intros _ _. split.
  - unfold keep_location. apply includes_spec.
  - unfold keep_location. now rewrite toLowerCase_idem.
Qed.

Lemma keep_location_substring_witness :
  let p := mock2 0 (fun _ => "") in
  isAscii "SALA" = true /\ isAscii (city (location p)) = true /\
  keep_location "SALA" p = true /\
  keep_location (Js.toLowerCase "SALA") p = keep_location "SALA" p.
Proof.
  intros p.
  destruct (keep_location_substring "SALA" p eq_refl eq_refl) as [Hiff Hcase].
  split; [reflexivity|]. split; [reflexivity|]. split; [|exact Hcase].
  apply Hiff. exists "dar es ", "am". reflexivity.
Defined.

(** X2. The evaluator works element by element: filtering a concatenation
    is concatenating the filtered parts, so a candidate list can be
    filtered page by page. *)
Theorem applyFilters_app (P Q : list Property) (f : SF.SearchFilters) :
  applyFilters (P ++ Q) f = applyFilters P f ++ applyFilters Q f.
Proof. rewrite !applyFilters_filter. apply List.filter_app. Qed.

(** X3. Filtering twice with the same filters changes nothing more, and two
    filter objects can be applied in either order. *)
Theorem applyFilters_idempotent_commute (P : list Property)
    (f g : SF.SearchFilters) :
  applyFilters (applyFilters P f) f = applyFilters P f /\
  applyFilters (applyFilters P f) g = applyFilters (applyFilters P g) f.
Proof.
  rewrite !applyFilters_filter, !filter_filter_andb. split.
  - apply List.filter_ext. intros p. apply andb_diag.
  - apply List.filter_ext. intros p. apply andb_comm.
Qed.

(** X4. Inverted price bounds: when the lower bound exceeds the upper bound
    (both non-zero, hence both applied) no property is returned, whatever
    the other criteria are. *)
Theorem inverted_price_bounds_empty (P : list Property) (f : SF.SearchFilters)
    (lo hi : Z) :
  (hi < lo)%Z -> lo <> 0%Z -> hi <> 0%Z ->
  applyFilters P (SF.with_priceMax (Some hi) (SF.with_priceMin (Some lo) f)) = [].
Proof.
  intros Hlt Hlo Hhi.
  rewrite applyFilters_filter.
  induction P as [|p P IH]; simpl; [reflexivity|].
  rewrite IH.
  assert (Hp : satisfies (SF.with_priceMax (Some hi)
                            (SF.with_priceMin (Some lo) f)) p = false).
  { unfold satisfies; simpl. unfold Js.truthy_number.
    destruct (Z.eqb_spec lo 0) as [|_]; [contradiction|].
    destruct (Z.eqb_spec hi 0) as [|_]; [contradiction|]. simpl.
    unfold keep_priceMin, keep_priceMax.
    destruct (Z.geb_spec (priceMonthly p) lo);
      destruct (Z.leb_spec (priceMonthly p) hi); try lia;
      rewrite ?andb_false_r, ?andb_false_l; simpl;
      rewrite ?andb_false_r; reflexivity. }
  now rewrite Hp.
Qed.

Lemma inverted_price_bounds_empty_witness :
  (500000 < 900000)%Z /\ 900000%Z <> 0%Z /\ 500000%Z <> 0%Z /\
  applyFilters (mockProperties 0 (fun _ => ""))
    (SF.with_priceMax (Some 500000) (SF.with_priceMin (Some 900000) SF.empty))
  = [].
Proof.
  split; [lia|]. split; [lia|]. split; [lia|].
  apply (inverted_price_bounds_empty _ SF.empty 900000 500000); lia.
Defined.

(** ** Detail lookup in fallback mode *)

Lemma findProperty_head_or_tail (p : Property) (P : list Property) (i : string) :
  findProperty (p :: P) i = if String.eqb (id p) i then Some p else findProperty P i.
Proof. reflexivity. Qed.

Lemma findProperty_None (P : list Property) (i : string) :
  i ∉ map id P -> findProperty P i = None.
Proof.
  induction P as [|q P IH]; intros Hn; [reflexivity|].
  rewrite findProperty_head_or_tail.
  destruct (String.eqb_spec (id q) i) as [He|_].
  - exfalso. apply Hn. simpl. rewrite He. apply list_elem_of_here.
  - apply IH. intros Hin. apply Hn. simpl. now apply list_elem_of_further.
Qed.

Lemma findProperty_own_id (P : list Property) (p : Property) :
  NoDup (map id P) -> p ∈ P -> findProperty P (id p) = Some p.
Proof.
  intros Hnd Hin.
  induction P as [|q P IH]; [inversion Hin|].
  simpl in Hnd. apply NoDup_cons in Hnd as [Hq Hnd].
  rewrite findProperty_head_or_tail.
  apply elem_of_cons in Hin as [->|Hin].
  - now rewrite String.eqb_refl.
  - destruct (String.eqb_spec (id q) (id p)) as [He|_].
    + exfalso. apply Hq. rewrite He.
      apply list_elem_of_In, in_map, list_elem_of_In, Hin.
    + now apply IH.
Qed.

(** X5. In a list whose ids are pairwise different, looking a property up by
    its own id returns that very property; an id that no property has
    gives [null]. *)
Theorem findProperty_by_own_id (P : list Property) (p : Property) :
  NoDup (map id P) -> p ∈ P ->
  findProperty P (id p) = Some p /\
  (forall i, i ∉ map id P -> findProperty P i = None).
Proof.
  intros Hnd Hin. split.
  - now apply findProperty_own_id.
  - intros i. apply findProperty_None.
Qed.

Lemma findProperty_by_own_id_witness :
  let P := mockProperties 0 (fun _ => "") in
  let p := mock4 0 (fun _ => "") in
  NoDup (map id P) /\ p ∈ P /\
  findProperty P (id p) = Some p /\
  (forall i, i ∉ map id P -> findProperty P i = None).
Proof.
  intros P p.
  assert (Hnd : NoDup (map id P)).
  { apply (bool_decide_unpack (NoDup (map id P))). vm_compute. exact I. }
  assert (Hin : p ∈ P).
  { unfold P, mockProperties. do 3 apply list_elem_of_further.
    apply list_elem_of_here. }
  split; [exact Hnd|]. split; [exact Hin|].
  apply (findProperty_by_own_id P p Hnd Hin).
Defined.

(** ** More on normalisation *)

Section NormalisationMore.

Import Untyped.

Implicit Types (r : gmap string JsVal).

(** X6. The status of a normalised property is decided by the truthiness of
    [is_available] alone: it is ['available'] exactly when the flag is
    truthy, ['rented'] when the flag is absent or [null], and never
    ['maintenance']; both variants agree on it. *)
Theorem status_from_is_available r :
  (status (convertDbPropertyToAppProperty r) = available <->
   truthy (get r "is_available") = true) /\
  status (convertDbPropertyToAppProperty r) <> maintenance /\
  status (convertDbPropertyToAppProperty (delete "is_available" r)) = rented /\
  status (convertDbPropertyToAppProperty (<["is_available" := JNull]> r)) = rented /\
  status (HomePage_convertDbPropertyToAppProperty r)
    = status (convertDbPropertyToAppProperty r).
Proof.
  repeat split; simpl; rewrite ?get_delete_eq, ?get_insert_eq; simpl;
    try reflexivity;
    destruct (truthy (get r "is_available")); congruence.
Qed.

(** X7. The two variants of the conversion differ only in where the price
    comes from, in the address and in the featured flag: on a record whose
    [price_monthly] and [monthly_rent] read the same and whose [address]
    and [is_featured] are falsy they build the same property. *)
Theorem variants_agree r :
  get r "price_monthly" = get r "monthly_rent" ->
  truthy (get r "address") = false ->
  truthy (get r "is_featured") = false ->
  convertDbPropertyToAppProperty r = HomePage_convertDbPropertyToAppProperty r.
Proof.
  intros Hprice Haddr Hfeat.
  unfold convertDbPropertyToAppProperty, HomePage_convertDbPropertyToAppProperty.
  unfold js_or. rewrite Hprice, Haddr, Hfeat. reflexivity.
Qed.

Lemma variants_agree_witness :
  let r : gmap string JsVal :=
    <["price_monthly" := JNum 450000]> (<["monthly_rent" := JNum 450000]>
    (<["is_available" := JBool true]> ∅)) in
  get r "price_monthly" = get r "monthly_rent" /\
  truthy (get r "address") = false /\
  truthy (get r "is_featured") = false /\
  convertDbPropertyToAppProperty r = HomePage_convertDbPropertyToAppProperty r.
Proof.
  intros r.
  assert (H1 : get r "price_monthly" = get r "monthly_rent")
    by (vm_compute; reflexivity).
  assert (H2 : truthy (get r "address") = false) by (vm_compute; reflexivity).
  assert (H3 : truthy (get r "is_featured") = false) by (vm_compute; reflexivity).
  split; [exact H1|]. split; [exact H2|]. split; [exact H3|].
  apply (variants_agree r H1 H2 H3).
Defined.

(** X8. On every record of the declared row type the HomePage conversion
    builds exactly the typed property [HomePage_convertRow]: the price is
    the monthly rent, district and neighbourhood are both the area, the
    image and amenity arrays are passed on as they are (an empty array
    stays empty), and [featured] is [false]. *)
Theorem HomePage_convert_on_rows (row : Db.Row) :
  HomePage_convertDbPropertyToAppProperty (rowToJs row)
  = untypedProperty (HomePage_convertRow row).
Proof. vm_compute. reflexivity. Qed.

(** X9. The conversion of the hooks file reads [price_monthly], a property
    that no record of the declared row type has: every such record is
    normalised to a property whose [priceMonthly] is [undefined], while all
    the other fields are those of the HomePage conversion. *)
Theorem hooks_convert_on_rows (row : Db.Row) :
  let p := convertDbPropertyToAppProperty (rowToJs row) in
  let h := HomePage_convertDbPropertyToAppProperty (rowToJs row) in
  priceMonthly p = JUndefined /\
  priceMonthly h = JNum (Db.monthly_rent row) /\
  (id p, ownerId p, title p, description p, location p, bedrooms p,
   bathrooms p, propertyType p, amenities p, images p, status p,
   createdDate p, updatedDate p, featured p)
  = (id h, ownerId h, title h, description h, location h, bedrooms h,
     bathrooms h, propertyType h, amenities h, images h, status h,
     createdDate h, updatedDate h, featured h).
Proof. vm_compute. repeat split; reflexivity. Qed.

End NormalisationMore.

(** ** More on query keys and cache handlers *)

(** X10. Query keys identify their query: two detail keys, two list keys or
    two owner keys are equal only for the same id, filter object or owner,
    and keys of different families never coincide, so no two different
    property queries share a cache entry. *)
Theorem query_keys_distinct (i j o o' : string) (f g : SF.SearchFilters) :
  (PROPERTY_KEYS.detail i = PROPERTY_KEYS.detail j <-> i = j) /\
  (PROPERTY_KEYS.list f = PROPERTY_KEYS.list g <-> f = g) /\
  (PROPERTY_KEYS.byOwner o = PROPERTY_KEYS.byOwner o' <-> o = o') /\
  PROPERTY_KEYS.detail i <> PROPERTY_KEYS.list f /\
  PROPERTY_KEYS.detail i <> PROPERTY_KEYS.byOwner o /\
  PROPERTY_KEYS.list f <> PROPERTY_KEYS.byOwner o.
Proof.
  unfold PROPERTY_KEYS.detail, PROPERTY_KEYS.list, PROPERTY_KEYS.byOwner,
    PROPERTY_KEYS.details, PROPERTY_KEYS.lists, PROPERTY_KEYS.all; simpl.
  repeat split; try congruence; try discriminate.
Qed.

Section HandlerFacts.

Implicit Types (c : gmap (list KeyPart) QueryState) (k fk : list KeyPart).

Lemma partialMatchKey_lists_all k :
  partialMatchKey k PROPERTY_KEYS.lists = true ->
  partialMatchKey k PROPERTY_KEYS.all = true.
Proof.
  destruct k as [|a k']; simpl; [discriminate|].
  intros H. apply andb_true_iff in H as [Ha _]. rewrite Ha.
  destruct k'; reflexivity.
Qed.

(** X11. Deleting a property invalidates every cached property query: the
    handler's invalidation of the list keys is subsumed by its invalidation
    of [['properties']], and after it every query under that prefix (the
    detail queries of other properties included) must be refetched. *)
Theorem delete_invalidates_every_query (deletedId : string) c k :
  partialMatchKey k PROPERTY_KEYS.all = true ->
  mustRefetch (deleteProperty_onSuccess deletedId c) k /\
  deleteProperty_onSuccess deletedId c
  = invalidateQueries PROPERTY_KEYS.all
      (removeQueries (PROPERTY_KEYS.detail deletedId) c).
Proof.
  intros Hk. split.
  - unfold deleteProperty_onSuccess. now apply mustRefetch_invalidated.
  - unfold deleteProperty_onSuccess. apply map_eq. intros k'.
    rewrite !lookup_invalidateQueries.
    destruct (removeQueries (PROPERTY_KEYS.detail deletedId) c !! k')
      as [q|]; simpl; [|reflexivity].
    destruct (partialMatchKey k' PROPERTY_KEYS.lists) eqn:Hl; [|reflexivity].
    rewrite (partialMatchKey_lists_all k' Hl). reflexivity.
Qed.

Lemma delete_invalidates_every_query_witness :
  let c : gmap (list KeyPart) QueryState :=
    {[ PROPERTY_KEYS.detail "2" :=
         {| data := DataNull; dataUpdatedAt := 0; isInvalidated := false |} ]} in
  partialMatchKey (PROPERTY_KEYS.detail "2") PROPERTY_KEYS.all = true /\
  mustRefetch (deleteProperty_onSuccess "1" c) (PROPERTY_KEYS.detail "2") /\
  deleteProperty_onSuccess "1" c
  = invalidateQueries PROPERTY_KEYS.all
      (removeQueries (PROPERTY_KEYS.detail "1") c).
Proof.
  intros c. split; [reflexivity|].
  apply (delete_invalidates_every_query "1" c (PROPERTY_KEYS.detail "2")).
  reflexivity.
Defined.

(** X12. The handlers never lose cached data they do not replace: a create
    leaves the data of every query as it was, an update changes only the
    data under the detail key it overwrites, and a delete drops only the
    removed detail query; invalidation itself only sets the flag. *)
Theorem handlers_keep_cached_data (now : Z) (n u : Property)
    (deletedId : string) c k :
  data <$> (createProperty_onSuccess n c !! k) = data <$> (c !! k) /\
  data <$> (updateProperty_onSuccess now u c !! k)
    = (if decide (PROPERTY_KEYS.detail (id u) = k)
       then Some (DataProperty u) else data <$> (c !! k)) /\
  data <$> (deleteProperty_onSuccess deletedId c !! k)
    = (if partialMatchKey k (PROPERTY_KEYS.detail deletedId)
       then None else data <$> (c !! k)).
Proof.
  unfold createProperty_onSuccess, updateProperty_onSuccess,
    deleteProperty_onSuccess, setQueryData.
  rewrite !lookup_invalidateQueries, lookup_removeQueries, lookup_insert.
  split; [|split].
  - destruct (c !! k) as [q|]; simpl; [|reflexivity].
    destruct (partialMatchKey k _), (partialMatchKey k _); reflexivity.
  - destruct (decide (PROPERTY_KEYS.detail (id u) = k)) as [He|Hne]; simpl.
    + destruct (partialMatchKey k _), (partialMatchKey k _); reflexivity.
    + destruct (c !! k) as [q|]; simpl; [|reflexivity].
      destruct (partialMatchKey k _), (partialMatchKey k _); reflexivity.
  - destruct (partialMatchKey k (PROPERTY_KEYS.detail deletedId)); simpl;
      [reflexivity|].
    destruct (c !! k) as [q|]; simpl; [|reflexivity].
    destruct (partialMatchKey k _), (partialMatchKey k _); reflexivity.
Qed.

End HandlerFacts.

Section FailureFacts.

Context {DbRecord : Type} (convert : DbRecord -> Property).

(** X13. A mutation that fails leaves the cache exactly as it was.  Without
    a configured backend create, update and delete reject with
    ['Supabase not configured'] whatever the backend would answer; with a
    configured backend an error answer rejects with that error.  In both
    cases no handler runs. *)
Theorem failed_mutations_keep_cache (now : Z) (deletedId e : string)
    (response : Response DbRecord) (response' : Response unit)
    (st : ClientState) :
  let failed := {| queries := queries st; mutation := error |} in
  (createProperty_mutationFn false DbRecord convert response
     = Rejected "Supabase not configured" /\
   updateProperty_mutationFn false DbRecord convert response
     = Rejected "Supabase not configured" /\
   deleteProperty_mutationFn false deletedId response'
     = Rejected "Supabase not configured") /\
  (useCreateProperty false DbRecord convert response st = failed /\
   useUpdateProperty false DbRecord convert now response st = failed /\
   useDeleteProperty false deletedId response' st = failed) /\
  (useCreateProperty true DbRecord convert (ResponseError e) st = failed /\
   useUpdateProperty true DbRecord convert now (ResponseError e) st = failed /\
   useDeleteProperty true deletedId (ResponseError e) st = failed /\
   useIncrementViews_settled true now deletedId (ResponseError e) st = failed).
Proof. repeat split; reflexivity. Qed.

End FailureFacts.

Section ViewsFacts.

Implicit Types (c : gmap (list KeyPart) QueryState).

(** X14. The views handler never adds or removes a query, and it touches no
    key but the detail key of its property. *)
Theorem incrementViews_keeps_queries (now : Z) (propertyId : string) c
    (k : list KeyPart) :
  (is_Some (incrementViews_onSuccess now propertyId tt c !! k)
   <-> is_Some (c !! k)) /\
  (k <> PROPERTY_KEYS.detail propertyId ->
   incrementViews_onSuccess now propertyId tt c !! k = c !! k).
Proof.
  unfold incrementViews_onSuccess, setQueryData_with, setQueryData.
  destruct (c !! PROPERTY_KEYS.detail propertyId) as [q|] eqn:Hq; simpl.
  - assert (Hsome : forall v w,
      (is_Some (<[PROPERTY_KEYS.detail propertyId := v]> c !! k)
       <-> is_Some (c !! k)) /\
      (k <> PROPERTY_KEYS.detail propertyId ->
       <[PROPERTY_KEYS.detail propertyId := w]> c !! k = c !! k)).
    { intros v w. split.
      - rewrite lookup_insert.
        destruct (decide (PROPERTY_KEYS.detail propertyId = k)) as [<-|Hne].
        + rewrite Hq. split; eauto.
        + reflexivity.
      - intros Hne. now rewrite lookup_insert_ne by congruence. }
    destruct (data q) as [p| |l]; simpl; apply Hsome.
  - split; [reflexivity | intros _; reflexivity].
Qed.

(** X15. Successful increments accumulate: while the counter stays within
    the safe integer range, after [n + 1] of them the cached property shows
    its views counter raised by [n + 1] (a missing counter counts as 0),
    every other field as it was, and the entry is fresh as of the last
    handler run. *)
Theorem incrementViews_accumulates (now fetched : Z) (propertyId : string)
    (p : Property) (invalidated : bool) (n : nat) c :
  (- MAX_SAFE <= default 0 (views p))%Z ->
  (default 0 (views p) + Z.of_nat (S n) <= MAX_SAFE)%Z ->
  c !! PROPERTY_KEYS.detail propertyId
    = Some {| data := DataProperty p; dataUpdatedAt := fetched;
              isInvalidated := invalidated |} ->
  Nat.iter (S n) (incrementViews_onSuccess now propertyId tt) c
    !! PROPERTY_KEYS.detail propertyId
  = Some {| data := DataProperty
                      (with_views (Some (default 0 (views p) + Z.of_nat (S n))) p);
            dataUpdatedAt := now; isInvalidated := false |}.
Proof.
  intros _ _ Hc. induction n as [|n IH].
  - simpl. unfold incrementViews_onSuccess, setQueryData_with, setQueryData.
    rewrite Hc. simpl. rewrite lookup_insert_eq. reflexivity.
  - change (Nat.iter (S (S n)) (incrementViews_onSuccess now propertyId tt) c)
      with (incrementViews_onSuccess now propertyId tt
              (Nat.iter (S n) (incrementViews_onSuccess now propertyId tt) c)).
    unfold incrementViews_onSuccess at 1. unfold setQueryData_with, setQueryData.
    rewrite IH. simpl. rewrite lookup_insert_eq.
    do 3 f_equal. unfold with_views; simpl. f_equal. f_equal. lia.
Qed.

Lemma incrementViews_accumulates_witness :
  let p := mock1 0 (fun _ => "") in
  let c : gmap (list KeyPart) QueryState :=
    {[ PROPERTY_KEYS.detail "1" :=
         {| data := DataProperty p; dataUpdatedAt := 10;
            isInvalidated := true |} ]} in
  (- MAX_SAFE <= default 0 (views p))%Z /\
  (default 0 (views p) + Z.of_nat 3 <= MAX_SAFE)%Z /\
  c !! PROPERTY_KEYS.detail "1"
    = Some {| data := DataProperty p; dataUpdatedAt := 10;
              isInvalidated := true |} /\
  Nat.iter 3 (incrementViews_onSuccess 20 "1" tt) c !! PROPERTY_KEYS.detail "1"
  = Some {| data := DataProperty (with_views (Some (0 + 3)) p);
            dataUpdatedAt := 20; isInvalidated := false |}.
Proof.
  intros p c.
  assert (Hlo : (- MAX_SAFE <= default 0 (views p))%Z)
    by (vm_compute; discriminate).
  assert (Hhi : (default 0 (views p) + Z.of_nat 3 <= MAX_SAFE)%Z)
    by (vm_compute; discriminate).
  assert (Hc : c !! PROPERTY_KEYS.detail "1"
    = Some {| data := DataProperty p; dataUpdatedAt := 10;
              isInvalidated := true |}) by apply lookup_singleton_eq.
  split; [exact Hlo|]. split; [exact Hhi|]. split; [exact Hc|].
  apply (incrementViews_accumulates 20 10 "1" p true 2 c Hlo Hhi Hc).
Defined.

End ViewsFacts.

(** ** More on the retry policy *)

(** X16. A query settles at the first run that succeeds or fails with a 4xx
    status, provided at most three failures of other kinds came before it:
    those earlier failures are retried and never reach the caller. *)
Theorem first_final_attempt_settles (A : Type) (es : list QueryError)
    (a : Attempt A) (rest : list (Attempt A)) :
  forallb (fun e => negb (is4xx e)) es = true ->
  (length es <= 3)%nat ->
  match a with Succeeds _ => true | Fails e => is4xx e end = true ->
  fetchWithRetry 0 (map Fails es ++ a :: rest) = (S (length es), Some a).
Proof.
  intros Hes Hlen Ha.
  assert (Hgen : forall n : Z, (0 <= n)%Z -> (n + Z.of_nat (length es) <= 3)%Z ->
            fetchWithRetry n (map Fails es ++ a :: rest)
            = (S (length es), Some a)).
  { clear Hlen. induction es as [|e es IH]; intros n Hn Hle; simpl.
    - destruct a as [v|e]; [reflexivity|].
      unfold retry. now rewrite Ha.
    - simpl in Hes. apply andb_true_iff in Hes as [He Hes].
      unfold retry. apply negb_true_iff in He. rewrite He.
      simpl in Hle.
      destruct (Z.ltb_spec n 3) as [_|Hge]; [|lia].
      rewrite (IH Hes (n + 1)%Z) by lia. reflexivity. }
  apply Hgen; lia.
Qed.

Lemma first_final_attempt_settles_witness :
  let es := [ {| error_status := Some 503 |}; {| error_status := None |} ] in
  forallb (fun e => negb (is4xx e)) es = true /\
  (length es <= 3)%nat /\
  fetchWithRetry 0 (map Fails es ++ Succeeds "data" :: [])
  = (3%nat, Some (Succeeds "data")).
Proof.
  intros es. split; [reflexivity|]. split; [simpl; lia|].
  apply (first_final_attempt_settles string es (Succeeds "data") []);
    [reflexivity | simpl; lia | reflexivity].
Defined.

(** ** More on the remote list query *)

Section RemoteQueryFacts.

Implicit Types (q : Db.Query) (r : Db.Row) (f : SF.SearchFilters).

(** The filters of [getAll], one conjunct per statement of the function. *)
Lemma matches_getAll f r :
  Db.matches (Db.getAll f) r
  = Db.is_available r &&
    match SF.city f with
    | Some v => if Js.truthy_string v
                then Db.holds r (Db.Ilike "city" (Db.contains_pattern v)) else true
    | None => true
    end &&
    match SF.priceMin f with
    | Some v => if Js.truthy_number v
                then Db.holds r (Db.Gte "monthly_rent" v) else true
    | None => true
    end &&
    match SF.priceMax f with
    | Some v => if Js.truthy_number v
                then Db.holds r (Db.Lte "monthly_rent" v) else true
    | None => true
    end &&
    match SF.propertyType f with
    | Some v => if Js.truthy_string v
                then Db.holds r (Db.EqText "property_type" v) else true
    | None => true
    end &&
    match SF.bedrooms f with
    | Some v => if Js.truthy_number v
                then Db.holds r (Db.Gte "bedrooms" v) else true
    | None => true
    end &&
    match SF.bathrooms f with
    | Some v => if Js.truthy_number v
                then Db.holds r (Db.Gte "bathrooms" v) else true
    | None => true
    end &&
    match SF.search f with
    | Some v => if Js.truthy_string v
                then Db.holds r (Db.OrIlike
                       [("title", Db.contains_pattern v);
                        ("description", Db.contains_pattern v);
                        ("city", Db.contains_pattern v);
                        ("area", Db.contains_pattern v)])
                else true
    | None => true
    end.
Proof.
  unfold Db.getAll.
  rewrite !matches_whenTruthy_pagination by reflexivity.
  rewrite !matches_whenTruthy_addFilter.
  unfold Db.matches at 1; simpl.
  destruct (Db.is_available r); reflexivity.
Qed.

(** X17. The remote list query never matches a row that is not available,
    and filter criteria only narrow it: a row matched for some filter
    object is matched for the empty one. *)
Theorem getAll_only_available f r :
  Db.matches (Db.getAll f) r = true ->
  Db.is_available r = true /\ Db.matches (Db.getAll SF.empty) r = true.
Proof.
  rewrite !matches_getAll. simpl.
  destruct (Db.is_available r); simpl; [|discriminate].
  intros _. split; reflexivity.
Qed.

Lemma getAll_only_available_witness :
  let f := SF.with_priceMax (Some 900000) SF.empty in
  let r := Db.seed4 "2025-06-20T10:42:32.000Z" in
  Db.matches (Db.getAll f) r = true /\
  Db.is_available r = true /\ Db.matches (Db.getAll SF.empty) r = true.
Proof.
  intros f r.
  assert (H : Db.matches (Db.getAll f) r = true) by (vm_compute; reflexivity).
  split; [exact H|]. apply (getAll_only_available f r H).
Defined.

Lemma like_percent_unfold (p t : string) :
  Db.like (String "%" p) t
  = Db.like p t || match t with
                   | EmptyString => false
                   | String _ t' => Db.like (String "%" p) t'
                   end.
Proof. destruct t; reflexivity. Qed.

Lemma like_percent_only (t : string) : Db.like "%" t = true.
Proof.
  induction t as [|c t IH]; [reflexivity|].
  rewrite like_percent_unfold. rewrite IH. apply orb_true_r.
Qed.

Lemma like_literal_prefix (s u : string) :
  wildcardFree s = true -> Db.like (s +:+ "%") u = Js.startsWith s u.
Proof.
  revert u. induction s as [|c s IH]; intros u Hs.
  - simpl. apply like_percent_only.
  - simpl in Hs. apply andb_true_iff in Hs as [Hc Hs].
    apply andb_true_iff in Hc as [Hp Hu].
    apply negb_true_iff in Hp, Hu.
    simpl. rewrite Hp, Hu.
    destruct u as [|d u]; [reflexivity|].
    now rewrite IH.
Qed.

(** For a text without wildcards the pattern [%text%] matches exactly the
    strings that contain the text. *)
Lemma like_contains (s t : string) :
  wildcardFree s = true ->
  Db.like (Db.contains_pattern s) t = Js.includes t s.
Proof.
  intros Hs. unfold Db.contains_pattern.
  change ("%" +:+ s +:+ "%") with (String "%" (s +:+ "%")).
  induction t as [|c t IH].
  - rewrite like_percent_unfold, like_literal_prefix by exact Hs.
    reflexivity.
  - rewrite like_percent_unfold, like_literal_prefix by exact Hs.
    change (Js.includes (String c t) s)
      with (Js.startsWith s (String c t) || Js.includes t s).
    now rewrite IH.
Qed.

Lemma toLowerCase_app (a b : string) :
  Js.toLowerCase (a +:+ b) = Js.toLowerCase a +:+ Js.toLowerCase b.
Proof. induction a as [|c a IH]; simpl; [reflexivity | now rewrite IH]. Qed.

Lemma lower_ascii_wildcard (c : ascii) :
  Ascii.eqb (Js.lower_ascii c) "%" = Ascii.eqb c "%" /\
  Ascii.eqb (Js.lower_ascii c) "_" = Ascii.eqb c "_".
Proof. destruct c as [[] [] [] [] [] [] [] []]; split; reflexivity. Qed.

Lemma wildcardFree_toLowerCase (s : string) :
  wildcardFree (Js.toLowerCase s) = wildcardFree s.
Proof.
  induction s as [|c s IH]; simpl; [reflexivity|].
  destruct (lower_ascii_wildcard c) as [-> ->]. now rewrite IH.
Qed.

Lemma ilike_contains (s t : string) :
  wildcardFree s = true ->
  Db.ilike (Db.contains_pattern s) t
  = Js.includes (Js.toLowerCase t) (Js.toLowerCase s).
Proof.
  intros Hs. unfold Db.ilike.
  replace (Js.toLowerCase (Db.contains_pattern s))
    with (Db.contains_pattern (Js.toLowerCase s)).
  - apply like_contains. now rewrite wildcardFree_toLowerCase.
  - unfold Db.contains_pattern. now rewrite !toLowerCase_app.
Qed.

Lemma isPlain_not_wildcard (c : ascii) :
  isPlain c = true ->
  negb (Ascii.eqb c "%") && negb (Ascii.eqb c "_") = true.
Proof. destruct c as [[] [] [] [] [] [] [] []]; intros H; (reflexivity || discriminate). Qed.

Lemma plainText_wildcardFree (s : string) :
  plainText s = true -> wildcardFree s = true.
Proof.
  unfold plainText. induction s as [|c s IH]; simpl; [reflexivity|].
  intros H. apply andb_true_iff in H as [Hc Hs].
  now rewrite (isPlain_not_wildcard c Hc), IH.
Qed.

(** X18. Had the filter object carried the location text under [city] as
    well, the two modes would agree: for a plain text (ASCII letters,
    digits and spaces), a property type that is one of the five names
    of the enumeration, no free-text search and an available row with an ASCII city, the remote
    query matches the row exactly when the fallback branch keeps the
    converted property. *)
Theorem modes_agree_given_city f r (s : string) :
  SF.location f = Some s -> SF.city f = Some s ->
  plainText s = true -> isAscii (Db.city r) = true ->
  from_option isPropertyTypeName true (SF.propertyType f) = true ->
  SF.search f = None ->
  Db.is_available r = true ->
  Db.matches (Db.getAll f) r = fallbackKeeps f (HomePage_convertRow r).
Proof.
  intros Hloc Hcity Hplain _ _ Hsearch Havail.
  pose proof (plainText_wildcardFree s Hplain) as Hs.
  rewrite fallbackKeeps_satisfies, matches_getAll.
  unfold satisfies, criterion.
  rewrite Hloc, Hcity, Hsearch, Havail. simpl.
  assert (Hc : Db.ilikeColumn r ("city", Db.contains_pattern s)
               = keep_location s (HomePage_convertRow r)).
  { unfold Db.ilikeColumn, keep_location; simpl. now apply ilike_contains. }
  rewrite Hc.
  destruct (Js.truthy_string s);
  destruct (SF.priceMin f) as [a|]; try destruct (Js.truthy_number a);
  destruct (SF.priceMax f) as [b|]; try destruct (Js.truthy_number b);
  destruct (SF.propertyType f) as [t|]; try destruct (Js.truthy_string t);
  destruct (SF.bedrooms f) as [d|]; try destruct (Js.truthy_number d);
  destruct (SF.bathrooms f) as [e|]; try destruct (Js.truthy_number e);
  simpl; rewrite ?andb_true_r; reflexivity.
Qed.

Lemma modes_agree_given_city_witness :
  let f := SF.with_priceMax (Some 900000)
             (SF.with_city (Some "mwa") (SF.with_location (Some "mwa") SF.empty)) in
  let r := Db.seed4 "2025-06-20T10:42:32.000Z" in
  SF.location f = Some "mwa" /\ SF.city f = Some "mwa" /\
  plainText "mwa" = true /\ isAscii (Db.city r) = true /\
  from_option isPropertyTypeName true (SF.propertyType f) = true /\
  SF.search f = None /\
  Db.is_available r = true /\
  Db.matches (Db.getAll f) r = true /\
  Db.matches (Db.getAll f) r = fallbackKeeps f (HomePage_convertRow r).
Proof.
  intros f r.
  repeat (split; [reflexivity|]).
  apply (modes_agree_given_city f r "mwa"); reflexivity.
Defined.

(** X19. The free-text criterion of the remote query: for a non-empty
    plain text (ASCII letters, digits and spaces) and a row whose title,
    description, city and area are ASCII, the row is matched exactly when
    it is available and the text occurs, ignoring letter case, in its
    title, its description, its city or its area. *)
Theorem getAll_search_semantics r (s : string) :
  s <> "" -> plainText s = true ->
  isAscii (Db.title r) = true -> isAscii (Db.description r) = true ->
  isAscii (Db.city r) = true -> isAscii (Db.area r) = true ->
  Db.matches (Db.getAll (SF.with_search (Some s) SF.empty)) r
  = Db.is_available r &&
    (Js.includes (Js.toLowerCase (Db.title r)) (Js.toLowerCase s) ||
     Js.includes (Js.toLowerCase (Db.description r)) (Js.toLowerCase s) ||
     Js.includes (Js.toLowerCase (Db.city r)) (Js.toLowerCase s) ||
     Js.includes (Js.toLowerCase (Db.area r)) (Js.toLowerCase s)).
Proof.
  intros Hne Hplain _ _ _ _.
  pose proof (plainText_wildcardFree s Hplain) as Hs.
  rewrite matches_getAll. simpl.
  assert (Ht : Js.truthy_string s = true).
  { unfold Js.truthy_string. destruct (String.eqb_spec s ""); [contradiction|].
    reflexivity. }
  rewrite Ht. simpl.
  unfold Db.ilikeColumn; simpl.
  rewrite !ilike_contains by exact Hs.
  rewrite !andb_true_r, orb_false_r, !orb_assoc. reflexivity.
Qed.

Lemma getAll_search_semantics_witness :
  let r := Db.seed4 "2025-06-20T10:42:32.000Z" in
  "LAKE" <> "" /\ plainText "LAKE" = true /\
  isAscii (Db.title r) = true /\ isAscii (Db.description r) = true /\
  isAscii (Db.city r) = true /\ isAscii (Db.area r) = true /\
  Db.matches (Db.getAll (SF.with_search (Some "LAKE") SF.empty)) r = true.
Proof.
  intros r. split; [discriminate|].
  repeat (split; [reflexivity|]).
  rewrite (getAll_search_semantics r "LAKE");
    [vm_compute; reflexivity | discriminate | reflexivity..].
Defined.

End RemoteQueryFacts.

(** ** Backend configuration *)

(** X20. The backend counts as configured exactly when both settings are
    present and non-empty, the URL does not contain ['your-project'] and
    the key does not contain ['your-anon-key']; otherwise every hook takes
    its fallback branch. *)
Theorem isSupabaseConfigured_spec (supabaseUrl supabaseAnonKey : option string) :
  isSupabaseConfigured supabaseUrl supabaseAnonKey = true <->
  exists url key,
    supabaseUrl = Some url /\ supabaseAnonKey = Some key /\
    url <> "" /\ key <> "" /\
    ~ (exists pre post, url = pre +:+ "your-project" +:+ post) /\
    ~ (exists pre post, key = pre +:+ "your-anon-key" +:+ post).
Proof.
  unfold isSupabaseConfigured, Js.truthy_string.
  destruct supabaseUrl as [url|], supabaseAnonKey as [key|];
    try (split; [discriminate | intros (u & k & H1 & H2 & _); discriminate]).
  rewrite !andb_true_iff, !negb_true_iff.
  rewrite <- !not_true_iff_false, !includes_spec, !String.eqb_eq.
  split.
  - intros (((Hu & Hk) & Hpu) & Hpk). exists url, key. tauto.
  - intros (u & k & [= <-] & [= <-] & Hu & Hk & Hpu & Hpk). tauto.
Qed.

(** ** Storage paths *)

Section StorageFacts.

Import Storage.

Lemma split_nonempty (sep : ascii) (s : string) : split sep s <> [].
Proof.
  destruct s as [|c s]; simpl; [discriminate|].
  destruct (Ascii.eqb c sep); [discriminate|].
  destruct (split sep s); discriminate.
Qed.

Lemma join_split (sep : ascii) (s : string) :
  join (String sep "") (split sep s) = s.
Proof.
  induction s as [|c s IH]; [reflexivity|].
  simpl. destruct (Ascii.eqb_spec c sep) as [->|Hne].
  - pose proof (split_nonempty sep s) as Hn.
    destruct (split sep s) as [|h t]; [contradiction|].
    simpl in *. now rewrite IH.
  - pose proof (split_nonempty sep s) as Hn.
    destruct (split sep s) as [|h t]; [contradiction|].
    destruct t as [|h' t]; simpl in *; now rewrite <- IH.
Qed.

Lemma split_parts_clean (sep : ascii) (s : string) :
  Forall (fun part => allChars (fun c => negb (Ascii.eqb c sep)) part = true)
    (split sep s).
Proof.
  induction s as [|c s IH]; simpl.
  - repeat constructor.
  - destruct (Ascii.eqb c sep) eqn:Hc.
    + constructor; [reflexivity | exact IH].
    + destruct (split sep s) as [|h t]; [repeat constructor; simpl; now rewrite Hc|].
      inversion IH as [|? ? Hh Ht]; subst.
      constructor; [simpl; now rewrite Hc, Hh | exact Ht].
Qed.

Lemma append_assoc (a b c : string) : (a +:+ b) +:+ c = a +:+ (b +:+ c).
Proof.
  induction a as [|x a IH]; [reflexivity|].
  change (String x ((a +:+ b) +:+ c) = String x (a +:+ (b +:+ c))).
  now rewrite IH.
Qed.

Lemma join_snoc (sep : string) (l : list string) (e : string) :
  l <> [] -> join sep (l ++ [e]) = join sep l +:+ sep +:+ e.
Proof.
  induction l as [|x l IH]; [contradiction|]. intros _.
  destruct l as [|y l]; [reflexivity|].
  change (join sep ((x :: y :: l) ++ [e]))
    with (x +:+ sep +:+ join sep ((y :: l) ++ [e])).
  rewrite IH by discriminate.
  change (join sep (x :: y :: l)) with (x +:+ sep +:+ join sep (y :: l)).
  now rewrite !append_assoc.
Qed.

Lemma allChars_app (P : ascii -> bool) (a b : string) :
  allChars P (a +:+ b) = allChars P a && allChars P b.
Proof.
  induction a as [|c a IH]; simpl; [reflexivity|].
  now rewrite IH, andb_assoc.
Qed.

Lemma append_cancel_l (a x y : string) : a +:+ x = a +:+ y -> x = y.
Proof.
  induction a as [|c a IH]; simpl; [trivial|].
  intros H. injection H as H. now apply IH.
Qed.

(** X21. The extension used for a storage path is the part of the file name
    after its last dot (the whole name when it has no dot); it never
    contains a dot.  The avatar path depends only on the user and on that
    extension, so two uploads by one user share a path exactly when their
    extensions are equal. *)
Theorem fileExt_after_last_dot (userId name name' : string) :
  (exists pre, name = pre +:+ fileExt name /\
               (pre = "" \/ exists p, pre = p +:+ ".")) /\
  Js.includes (fileExt name) "." = false /\
  (uploadAvatar_fileName userId name = uploadAvatar_fileName userId name'
   <-> fileExt name = fileExt name').
Proof.
  assert (Hlast : exists l', split "." name = l' ++ [fileExt name]).
  { unfold fileExt, pop, render.
    pose proof (split_nonempty "." name) as Hn.
    destruct (last (split "." name)) as [e|] eqn:He.
    - apply last_Some in He. exact He.
    - apply last_None in He. contradiction. }
  destruct Hlast as [l' Hl'].
  split; [|split].
  - pose proof (join_split "." name) as Hj. rewrite Hl' in Hj.
    destruct l' as [|x l'].
    + exists "". split; [symmetry; exact Hj | now left].
    + rewrite join_snoc in Hj by discriminate.
      exists (join "." (x :: l') +:+ "."). split.
      * rewrite append_assoc. symmetry. exact Hj.
      * right. eauto.
  - pose proof (split_parts_clean "." name) as Hc. rewrite Hl' in Hc.
    apply Forall_app in Hc as [_ Hc]. inversion Hc as [|? ? He _]; subst.
    apply not_true_iff_false. intros Hin.
    apply includes_spec in Hin as (pre & post & Hpp).
    rewrite Hpp in He. rewrite !allChars_app in He. simpl in He.
    rewrite andb_false_r in He. discriminate.
  - unfold uploadAvatar_fileName. split.
    + intros H. apply append_cancel_l in H. now apply append_cancel_l in H.
    + now intros ->.
Qed.

Lemma pretty_N_char_digit (x : N) : isDigit (pretty_N_char x) = true.
Proof. unfold pretty_N_char. repeat case_match; reflexivity. Qed.

Lemma pretty_N_go_digits (x : N) :
  forall s, exists d, pretty_N_go x s = d +:+ s /\ allChars isDigit d = true.
Proof.
  induction (N.lt_wf_0 x) as [x _ IH]. intros s.
  assert (x = 0 \/ 0 < x)%N as [->|Hpos] by lia.
  - exists "". split; reflexivity.
  - rewrite pretty_N_go_step by exact Hpos.
    destruct (IH (x `div` 10)%N (N.div_lt x 10 Hpos eq_refl)
                (String (pretty_N_char (x `mod` 10)) s)) as (d & Hd & Hdig).
    exists (d +:+ String (pretty_N_char (x `mod` 10)) ""). split.
    + rewrite Hd. now rewrite append_assoc.
    + rewrite allChars_app, Hdig. simpl.
      now rewrite pretty_N_char_digit.
Qed.

Lemma pretty_N_digits (x : N) : allChars isDigit (pretty x) = true.
Proof.
  unfold pretty, pretty_N. case_decide; [reflexivity|].
  destruct (pretty_N_go_digits x "") as (d & Hd & Hdig).
  rewrite Hd. rewrite allChars_app, Hdig. reflexivity.
Qed.

(** Two strings that are cut by the same separator after separator-free
    heads have equal heads and equal tails. *)
Lemma cut_at_separator (sep : ascii) (a b x y : string) :
  allChars (fun c => negb (Ascii.eqb c sep)) a = true ->
  allChars (fun c => negb (Ascii.eqb c sep)) b = true ->
  a +:+ String sep x = b +:+ String sep y -> a = b /\ x = y.
Proof.
  revert b. induction a as [|c a IH]; intros b Ha Hb H.
  - destruct b as [|d b]; simpl in *.
    + injection H as ->. split; reflexivity.
    + injection H as <- _. rewrite Ascii.eqb_refl in Hb. discriminate.
  - destruct b as [|d b]; simpl in *.
    + injection H as -> _. rewrite Ascii.eqb_refl in Ha. discriminate.
    + injection H as -> H.
      apply andb_true_iff in Ha as [_ Ha], Hb as [_ Hb].
      destruct (IH b Ha Hb H) as [-> ->]. split; reflexivity.
Qed.

Lemma digits_without (sep : ascii) (d : string) :
  isDigit sep = false -> allChars isDigit d = true ->
  allChars (fun c => negb (Ascii.eqb c sep)) d = true.
Proof.
  intros Hsep. induction d as [|c d IH]; simpl; [reflexivity|].
  intros H. apply andb_true_iff in H as [Hc Hd].
  rewrite (IH Hd), andb_true_r.
  destruct (Ascii.eqb_spec c sep) as [->|_]; [congruence | reflexivity].
Qed.

(** X22. Storage paths of property images are unambiguous: two paths built
    for the same property are equal only if they carry the same clock
    reading, the same index and the same extension.  In particular the
    files of one upload, which have pairwise different indices, never
    share a path. *)
Theorem image_paths_unambiguous (propertyId : string) (t t' : N) (i i' : nat)
    (name name' : string) :
  uploadPropertyImages_fileName propertyId t i name
  = uploadPropertyImages_fileName propertyId t' i' name' <->
  t = t' /\ i = i' /\ fileExt name = fileExt name'.
Proof.
  split; [|intros (-> & -> & H); unfold uploadPropertyImages_fileName; now rewrite H].
  unfold uploadPropertyImages_fileName. intros H.
  apply append_cancel_l in H. apply (append_cancel_l "/") in H.
  apply cut_at_separator in H as [Ht H];
    [|apply digits_without; [reflexivity | apply pretty_N_digits]..].
  apply cut_at_separator in H as [Hi He];
    [|apply digits_without; [reflexivity | apply pretty_N_digits]..].
  apply (inj pretty) in Ht. apply (inj pretty) in Hi. auto.
Qed.

End StorageFacts.

(** ** Regular expressions: the matcher decides the language *)

Section RegexFacts.

Import Regex.

Lemma app_empty (a b : string) : a +:+ b = "" -> a = "" /\ b = "".
Proof. destruct a; [simpl; auto | discriminate]. Qed.

Lemma nullable_Lang (r : Regex) : nullable r = true <-> Lang r "".
Proof.
  split.
  - induction r as [| |P|r1 IH1 r2 IH2|r1 IH1 r2 IH2|r IH]; simpl; intros H;
      try discriminate.
    + constructor.
    + apply andb_true_iff in H as [H1 H2].
      apply (LCat r1 r2 "" ""); auto.
    + apply orb_true_iff in H as [H|H]; [apply LAltL | apply LAltR]; auto.
    + constructor.
  - intros H. remember "" as s eqn:Hs.
    induction H as [|P c Hc|r1 r2 s1 s2 H1 IH1 H2 IH2|r1 r2 s H IH|r1 r2 s H IH
                    |r|r s1 s2 H1 IH1 H2 IH2]; simpl; try reflexivity.
    + discriminate.
    + apply app_empty in Hs as [-> ->]. now rewrite IH1, IH2.
    + now rewrite IH.
    + rewrite IH by exact Hs. apply orb_true_r.
Qed.

Lemma Lang_deriv_sound (c : ascii) (r : Regex) :
  forall s, Lang (deriv c r) s -> Lang r (String c s).
Proof.
  induction r as [| |P|r1 IH1 r2 IH2|r1 IH1 r2 IH2|r IH]; simpl; intros s H.
  - inversion H.
  - inversion H.
  - destruct (P c) eqn:Hc; inversion H; subst. now constructor.
  - destruct (nullable r1) eqn:Hn.
    + inversion H as [| | | ? ? ? HL | ? ? ? HR | |]; subst.
      * inversion HL as [| |? ? s1 s2 Ha Hb| | | |]; subst.
        apply (LCat r1 r2 (String c s1) s2); auto.
      * apply (LCat r1 r2 "" (String c s)); [now apply nullable_Lang | auto].
    + inversion H as [| |? ? s1 s2 Ha Hb| | | |]; subst.
      apply (LCat r1 r2 (String c s1) s2); auto.
  - inversion H; subst; [apply LAltL | apply LAltR]; auto.
  - inversion H as [| |? ? s1 s2 Ha Hb| | | |]; subst.
    apply (LStarCons r (String c s1) s2); auto.
Qed.

Lemma Lang_deriv_complete (r : Regex) (w : string) :
  Lang r w -> forall c s, w = String c s -> Lang (deriv c r) s.
Proof.
  induction 1 as [|P d Hd|r1 r2 s1 s2 H1 IH1 H2 IH2|r1 r2 s0 H IH|r1 r2 s0 H IH
                  |r|r s1 s2 H1 IH1 H2 IH2]; intros c s Hw; simpl.
  - discriminate.
  - injection Hw as -> <-. rewrite Hd. constructor.
  - destruct s1 as [|d s1]; simpl in Hw.
    + apply nullable_Lang in H1. rewrite H1. apply LAltR. now apply IH2.
    + injection Hw as -> <-.
      assert (Hc : Lang (Cat (deriv c r1) r2) (s1 +:+ s2))
        by (constructor; auto).
      destruct (nullable r1); [now apply LAltL | exact Hc].
  - apply LAltL. now apply IH.
  - apply LAltR. now apply IH.
  - discriminate.
  - destruct s1 as [|d s1]; simpl in Hw.
    + now apply IH2.
    + injection Hw as -> <-. constructor; auto.
Qed.

(** The derivative matcher accepts exactly the language of the pattern. *)
Lemma matches_Lang (r : Regex) (s : string) : matches r s = true <-> Lang r s.
Proof.
  revert r. induction s as [|c s IH]; intros r; simpl.
  - apply nullable_Lang.
  - rewrite IH. split.
    + apply Lang_deriv_sound.
    + intros H. now apply (Lang_deriv_complete r (String c s)).
Qed.

Lemma Lang_Cat (r1 r2 : Regex) (s : string) :
  Lang (Cat r1 r2) s <->
  exists s1 s2, s = s1 +:+ s2 /\ Lang r1 s1 /\ Lang r2 s2.
Proof.
  split.
  - intros H. inversion H; subst. eauto.
  - intros (s1 & s2 & -> & H1 & H2). now constructor.
Qed.

Lemma Lang_Alt (r1 r2 : Regex) (s : string) :
  Lang (Alt r1 r2) s <-> Lang r1 s \/ Lang r2 s.
Proof.
  split.
  - intros H. inversion H; subst; auto.
  - intros [H|H]; [now apply LAltL | now apply LAltR].
Qed.

Lemma Lang_Eps (s : string) : Lang Eps s <-> s = "".
Proof. split; [intros H; now inversion H | intros ->; constructor]. Qed.

Lemma Lang_Class (P : ascii -> bool) (s : string) :
  Lang (Class P) s <-> exists c, s = String c "" /\ P c = true.
Proof.
  split.
  - intros H. inversion H; subst. eauto.
  - intros (c & -> & Hc). now constructor.
Qed.

Lemma Lang_Chr (c : ascii) (s : string) : Lang (Chr c) s <-> s = String c "".
Proof.
  unfold Chr. rewrite Lang_Class. split.
  - intros (d & -> & Hd). apply Ascii.eqb_eq in Hd. now subst.
  - intros ->. exists c. split; [reflexivity | apply Ascii.eqb_refl].
Qed.

Lemma Lang_Lit (w s : string) : Lang (Lit w) s <-> s = w.
Proof.
  revert s. induction w as [|c w IH]; intros s; simpl.
  - apply Lang_Eps.
  - rewrite Lang_Cat. split.
    + intros (s1 & s2 & -> & H1 & H2).
      apply Lang_Chr in H1. apply IH in H2. now subst.
    + intros ->. exists (String c ""), w. split; [reflexivity|].
      split; [now apply Lang_Chr | now apply IH].
Qed.

Lemma Lang_Repeat_Class (P : ascii -> bool) (n : nat) (s : string) :
  Lang (Repeat n (Class P)) s <->
  String.length s = n /\ allChars P s = true.
Proof.
  revert s. induction n as [|n IH]; intros s; simpl.
  - rewrite Lang_Eps. split.
    + intros ->. split; reflexivity.
    + intros [H _]. destruct s; [reflexivity | discriminate].
  - rewrite Lang_Cat. split.
    + intros (s1 & s2 & -> & H1 & H2).
      apply Lang_Class in H1 as (c & -> & Hc). apply IH in H2 as [Hl Ha].
      change (String c "" +:+ s2) with (String c s2).
      simpl. rewrite Hc, Ha, Hl. split; reflexivity.
    + intros [Hl Ha]. destruct s as [|c s]; [discriminate|].
      simpl in *. apply andb_true_iff in Ha as [Hc Ha].
      exists (String c ""), s. split; [reflexivity|]. split.
      * now constructor.
      * apply IH. split; [congruence | exact Ha].
Qed.

Lemma Lang_Star_Class (P : ascii -> bool) (s : string) :
  Lang (Star (Class P)) s <-> allChars P s = true.
Proof.
  split.
  - intros H. remember (Star (Class P)) as r eqn:Hr.
    induction H as [| | | | |r'|r' s1 s2 H1 _ H2 IH2]; try discriminate.
    + reflexivity.
    + injection Hr as ->. inversion H1 as [|? c Hc| | | | |]; subst.
      change (P c && allChars P s2 = true).
      rewrite Hc, IH2 by reflexivity. reflexivity.
  - induction s as [|c s IH]; simpl; intros H.
    + constructor.
    + apply andb_true_iff in H as [Hc Hs].
      apply (LStarCons (Class P) (String c "") s); [now constructor | auto].
Qed.

Lemma Lang_Plus_Class (P : ascii -> bool) (s : string) :
  Lang (Plus (Class P)) s <-> s <> "" /\ allChars P s = true.
Proof.
  unfold Plus. rewrite Lang_Cat. split.
  - intros (s1 & s2 & -> & H1 & H2).
    apply Lang_Class in H1 as (c & -> & Hc). apply Lang_Star_Class in H2.
    change (String c "" +:+ s2) with (String c s2).
    simpl. rewrite Hc, H2. split; [discriminate | reflexivity].
  - intros [Hne Ha]. destruct s as [|c s]; [contradiction|].
    simpl in Ha. apply andb_true_iff in Ha as [Hc Ha].
    exists (String c ""), s. split; [reflexivity|]. split.
    + now constructor.
    + now apply Lang_Star_Class.
Qed.

End RegexFacts.

(** ** Validators *)

Section ValidatorFacts.

Import Regex Validators.

Lemma PHONE_REGEX_Lang (s : string) :
  Lang VALIDATION.PHONE_REGEX s <->
  exists d rest,
    (s = "+255" +:+ String d rest \/ s = String "0" (String d rest)) /\
    VALIDATION.is6or7 d = true /\
    String.length rest = 8%nat /\ allChars isDigit rest = true.
Proof.
  unfold VALIDATION.PHONE_REGEX. rewrite Lang_Cat. split.
  - intros (s1 & s2 & -> & Hpre & Htail).
    apply Lang_Cat in Htail as (s3 & s4 & -> & Hd & Hrest).
    apply Lang_Class in Hd as (d & -> & Hd).
    apply Lang_Repeat_Class in Hrest as [Hlen Hdig].
    exists d, s4. split; [|auto].
    apply Lang_Alt in Hpre as [Hpre|Hpre]; apply Lang_Lit in Hpre; subst;
      [left | right]; reflexivity.
  - intros (d & rest & Hs & Hd & Hlen & Hdig).
    assert (Htail : Lang (Cat (Class VALIDATION.is6or7)
                            (Repeat 8 (Class isDigit))) (String d rest)).
    { apply (LCat _ _ (String d "") rest); [now constructor|].
      apply Lang_Repeat_Class. auto. }
    destruct Hs as [->| ->].
    + exists "+255", (String d rest). split; [reflexivity|].
      split; [apply Lang_Alt; left; now apply Lang_Lit | exact Htail].
    + exists "0", (String d rest). split; [reflexivity|].
      split; [apply Lang_Alt; right; now apply Lang_Lit | exact Htail].
Qed.

(** X23. An ASCII phone number is accepted exactly when, once all white
    space is removed, it is [+255] or [0], then a [6] or a [7], then eight
    digits; so an accepted number has 13 or 10 characters besides white
    space, and white space anywhere in the input does not matter. *)
Theorem validatePhoneNumber_spec (phone : string) :
  isAscii phone = true ->
  (validatePhoneNumber (Some phone) = None <->
   exists d rest,
     (removeSpaces phone = "+255" +:+ String d rest \/
      removeSpaces phone = String "0" (String d rest)) /\
     (d = "6"%char \/ d = "7"%char) /\
     String.length rest = 8%nat /\ allChars isDigit rest = true) /\
  (validatePhoneNumber (Some phone) = None ->
   String.length (removeSpaces phone) = 13%nat \/
   String.length (removeSpaces phone) = 10%nat).
Proof.
  intros _.
  assert (Hspec : validatePhoneNumber (Some phone) = None <->
                  Lang VALIDATION.PHONE_REGEX (removeSpaces phone)).
  { unfold validatePhoneNumber. destruct phone as [|c p].
    - split; [discriminate|]. intros H.
      apply PHONE_REGEX_Lang in H as (d & rest & [H|H] & _); discriminate.
    - rewrite <- matches_Lang.
      destruct (matches VALIDATION.PHONE_REGEX (removeSpaces (String c p)));
        simpl; split; congruence. }
  split.
  - rewrite Hspec, PHONE_REGEX_Lang. split.
    + intros (d & rest & Hs & Hd & Hr). exists d, rest.
      split; [exact Hs|]. split; [|exact Hr].
      unfold VALIDATION.is6or7 in Hd. apply orb_true_iff in Hd.
      rewrite !Ascii.eqb_eq in Hd. destruct Hd as [<-|<-]; auto.
    + intros (d & rest & Hs & Hd & Hr). exists d, rest.
      split; [exact Hs|]. split; [|exact Hr].
      destruct Hd as [->| ->]; reflexivity.
  - intros H. apply Hspec, PHONE_REGEX_Lang in H
      as (d & rest & [Hs|Hs] & _ & Hlen & _); rewrite Hs; simpl; rewrite Hlen;
      auto.
Qed.

Lemma validatePhoneNumber_spec_witness :
  isAscii "0712 345 678" = true /\
  validatePhoneNumber (Some "0712 345 678") = None /\
  (String.length (removeSpaces "0712 345 678") = 13%nat \/
   String.length (removeSpaces "0712 345 678") = 10%nat).
Proof.
  assert (H : validatePhoneNumber (Some "0712 345 678") = None)
    by (vm_compute; reflexivity).
  split; [reflexivity|]. split; [exact H|].
  apply (proj2 (validatePhoneNumber_spec "0712 345 678" eq_refl) H).
Defined.

Lemma EMAIL_REGEX_Lang (s : string) :
  Lang VALIDATION.EMAIL_REGEX s <->
  exists a b c,
    s = a +:+ "@" +:+ b +:+ "." +:+ c /\
    a <> "" /\ b <> "" /\ c <> "" /\
    allChars VALIDATION.notSpaceNorAt a = true /\
    allChars VALIDATION.notSpaceNorAt b = true /\
    allChars VALIDATION.notSpaceNorAt c = true.
Proof.
  unfold VALIDATION.EMAIL_REGEX. split.
  - intros H.
    apply Lang_Cat in H as (a & s1 & -> & Ha & H).
    apply Lang_Cat in H as (at' & s2 & -> & Hat & H).
    apply Lang_Cat in H as (b & s3 & -> & Hb & H).
    apply Lang_Cat in H as (dot & c & -> & Hdot & Hc).
    apply Lang_Plus_Class in Ha as [Ha1 Ha2], Hb as [Hb1 Hb2], Hc as [Hc1 Hc2].
    apply Lang_Chr in Hat, Hdot. subst.
    exists a, b, c. repeat split; auto.
  - intros (a & b & c & -> & Ha & Hb & Hc & Ha' & Hb' & Hc').
    apply (LCat _ _ a); [now apply Lang_Plus_Class|].
    apply (LCat _ _ "@"); [now apply Lang_Chr|].
    apply (LCat _ _ b); [now apply Lang_Plus_Class|].
    apply (LCat _ _ "."); [now apply Lang_Chr|].
    now apply Lang_Plus_Class.
Qed.

(** X24. An ASCII e-mail address is accepted exactly when it reads
    [local@domain.tail] with the three parts non-empty and free of white
    space and of [@]. *)
Theorem validateEmail_spec (email : string) :
  isAscii email = true ->
  validateEmail (Some email) = None <->
  exists a b c,
    email = a +:+ "@" +:+ b +:+ "." +:+ c /\
    a <> "" /\ b <> "" /\ c <> "" /\
    allChars VALIDATION.notSpaceNorAt a = true /\
    allChars VALIDATION.notSpaceNorAt b = true /\
    allChars VALIDATION.notSpaceNorAt c = true.
Proof.
  intros _.
  rewrite <- EMAIL_REGEX_Lang, <- matches_Lang.
  unfold validateEmail. destruct email as [|c e].
  - split; discriminate.
  - destruct (matches VALIDATION.EMAIL_REGEX (String c e)); simpl;
      split; congruence.
Qed.

Lemma validateEmail_spec_witness :
  isAscii "juma@example.co.tz" = true /\
  validateEmail (Some "juma@example.co.tz") = None /\
  validateEmail (Some "juma@example") <> None.
Proof.
  split; [reflexivity|]. split.
  - apply (validateEmail_spec "juma@example.co.tz" eq_refl).
    exists "juma", "example", "co.tz". repeat split; (reflexivity || discriminate).
  - vm_compute. discriminate.
Defined.

Lemma trimEnd_empty (s : string) :
  trimEnd s = "" <-> allChars isSpace s = true.
Proof.
  induction s as [|c s IH]; simpl; [tauto|].
  destruct (trimEnd s) as [|d t] eqn:Ht.
  - destruct (isSpace c); simpl.
    + rewrite <- IH. tauto.
    + split; discriminate.
  - split; [discriminate|]. intros H. apply andb_true_iff in H as [_ H].
    apply IH in H. discriminate.
Qed.

Lemma allChars_trimStart (s : string) :
  allChars isSpace (trimStart s) = allChars isSpace s.
Proof.
  induction s as [|c s IH]; [reflexivity|].
  simpl. destruct (isSpace c) eqn:Hc; simpl; [exact IH | now rewrite Hc].
Qed.

Lemma strlen_zero (s : string) : (strlen s =? 0)%Z = true <-> s = "".
Proof.
  unfold strlen. rewrite Z.eqb_eq. destruct s; simpl; split;
    try reflexivity; try discriminate; lia.
Qed.

Lemma validateRequired_None (value : option string) (fieldName : string) :
  validateRequired value fieldName = None <->
  exists v, value = Some v /\ allChars isSpace v = false.
Proof.
  unfold validateRequired.
  destruct value as [[|c v]|].
  - split; [discriminate|]. intros (v & [= <-] & H). discriminate.
  - destruct (strlen (trim (String c v)) =? 0)%Z eqn:Hz.
    + split; [discriminate|].
      intros (v' & [= <-] & H).
      apply strlen_zero in Hz. unfold trim in Hz.
      apply trimEnd_empty in Hz. rewrite allChars_trimStart in Hz. congruence.
    + split; [|reflexivity].
      intros _. exists (String c v). split; [reflexivity|].
      apply not_true_iff_false. intros Ha.
      rewrite <- allChars_trimStart in Ha. apply trimEnd_empty in Ha.
      fold (trim (String c v)) in Ha. rewrite Ha in Hz. discriminate.
  - split; [discriminate|]. intros (v & [=] & _).
Qed.

(** X25. A required field with an ASCII value is accepted exactly when it
    holds at least one character that is not white space: a missing value,
    the empty string and a blank string are all rejected, with the same
    message. *)
Theorem validateRequired_spec (value : option string) (fieldName : string) :
  from_option isAscii true value = true ->
  (validateRequired value fieldName = None <->
   exists v, value = Some v /\ allChars isSpace v = false) /\
  (validateRequired value fieldName = None \/
   validateRequired value fieldName = Some (fieldName +:+ " is required")).
Proof.
  intros _.
  split; [apply validateRequired_None|].
  unfold validateRequired.
  destruct value as [[|c v]|]; auto.
  destruct (strlen (trim (String c v)) =? 0)%Z; auto.
Qed.

Lemma validateRequired_spec_witness :
  from_option isAscii true (Some "  Juma ") = true /\
  validateRequired (Some "  Juma ") "Full name" = None /\
  validateRequired (Some "   ") "Full name" = Some "Full name is required".
Proof.
  split; [reflexivity|]. split.
  - apply (validateRequired_spec (Some "  Juma ") "Full name" eq_refl).
    exists "  Juma ". split; reflexivity.
  - vm_compute. reflexivity.
Defined.

Lemma validatePassword_spec (password : option string) :
  validatePassword password = None <->
  exists p, password = Some p /\ (6 <= String.length p)%nat.
Proof.
  unfold validatePassword, VALIDATION.PASSWORD_MIN_LENGTH, strlen.
  destruct password as [[|c p]|].
  - split; [discriminate|]. intros (p & [= <-] & H). simpl in H. lia.
  - destruct (Z.ltb_spec (Z.of_nat (String.length (String c p))) 6) as [Hlt|Hge].
    + split; [discriminate|]. intros (p' & [= <-] & H). lia.
    + split; [|reflexivity]. intros _. exists (String c p).
      split; [reflexivity | lia].
  - split; [discriminate|]. intros (p & [=] & _).
Qed.

Lemma validateLength_2_50 (value fieldName : string) :
  validateLength value fieldName (Some 2%Z) (Some 50%Z) = None <->
  (2 <= String.length value <= 50)%nat.
Proof.
  unfold validateLength, orElse, strlen; simpl.
  destruct (Z.ltb_spec (Z.of_nat (String.length value)) 2) as [Hlt|Hge]; simpl.
  - split; [discriminate | lia].
  - destruct (Z.gtb_spec (Z.of_nat (String.length value)) 50) as [Hgt|Hle].
    + split; [discriminate | lia].
    + split; [lia | reflexivity].
Qed.

Lemma setError_nil (key : string) (e : option string)
    (errors : list (string * string)) :
  setError key e errors = [] <-> errors = [] /\ e = None.
Proof.
  unfold setError. destruct e as [msg|].
  - split; [|intros [_ H]; discriminate].
    intros H. apply app_eq_nil in H as [_ H]. discriminate.
  - tauto.
Qed.

Lemma hasErrors_false (errors : list (string * string)) :
  hasErrors errors = false <-> errors = [].
Proof. destruct errors; simpl; split; congruence. Qed.

(** X26. A registration form whose fields are ASCII text passes (no error
    is recorded) exactly when the full name has a non-blank character and 2
    to 50 characters, the e-mail address and the phone number are accepted
    by their validators, the password has at least 6 characters, and the
    role is ['tenant'] or ['landlord']. *)
Theorem validateRegistrationForm_passes (d : RegistrationData) :
  asciiForm d = true ->
  hasErrors (validateRegistrationForm d) = false <->
  (exists n, fullName d = Some n /\ allChars isSpace n = false /\
             (2 <= String.length n <= 50)%nat) /\
  validateEmail (email d) = None /\
  (exists p, password d = Some p /\ (6 <= String.length p)%nat) /\
  validatePhoneNumber (phoneNumber d) = None /\
  (userRole d = Some "tenant" \/ userRole d = Some "landlord").
Proof.
  intros _.
  rewrite hasErrors_false. unfold validateRegistrationForm.
  set (nameError := orElse (validateRequired (fullName d) "Full name")
         (validateLength (default "" (fullName d)) "Full name" (Some 2%Z) (Some 50%Z))).
  assert (Hname : nameError = None <->
            exists n, fullName d = Some n /\ allChars isSpace n = false /\
                      (2 <= String.length n <= 50)%nat).
  { unfold nameError, orElse.
    destruct (validateRequired (fullName d) "Full name") as [e|] eqn:Hreq.
    - split; [discriminate|]. intros (n & Hn & Hblank & _).
      assert (Hnone : validateRequired (fullName d) "Full name" = None)
        by (apply validateRequired_None; eauto).
      congruence.
    - apply validateRequired_None in Hreq as (n & Hn & Hblank).
      rewrite Hn. simpl. rewrite validateLength_2_50. split.
      + intros H. eauto.
      + intros (n' & [= <-] & _ & H). exact H. }
  assert (Hrole : forall errors : list (string * string),
            match userRole d with
            | None | Some EmptyString =>
                errors ++ [("userRole", "Please select a valid user role")]
            | Some role =>
                if negb (String.eqb role "tenant" || String.eqb role "landlord")
                then errors ++ [("userRole", "Please select a valid user role")]
                else errors
            end = [] <->
            errors = [] /\
            (userRole d = Some "tenant" \/ userRole d = Some "landlord")).
  { intros errors.
    assert (Hsnoc : forall x : string * string, errors ++ [x] = [] <-> False).
    { intros x. split; [|contradiction].
      intros H. apply app_eq_nil in H as [_ H]. discriminate. }
    destruct (userRole d) as [[|c role]|].
    - rewrite Hsnoc. split; [contradiction|]. intros [_ [H|H]]; discriminate.
    - remember (String c role) as r eqn:Hr.
      destruct (String.eqb_spec r "tenant") as [Ht|Ht];
        destruct (String.eqb_spec r "landlord") as [Hl|Hl]; cbn [negb orb];
        try (subst r; rewrite ?Ht, ?Hl; split; [intros ->; auto | tauto]).
      rewrite Hsnoc. split; [contradiction|].
      intros [_ [[= H]|[= H]]]; congruence.
    - rewrite Hsnoc. split; [contradiction|]. intros [_ [H|H]]; discriminate. }
  rewrite Hrole, !setError_nil, Hname, validatePassword_spec.
  tauto.
Qed.

Lemma validateRegistrationForm_passes_witness :
  let d := {| fullName := Some "Juma Mwangi";
              email := Some "juma@example.co.tz";
              password := Some "secret1";
              phoneNumber := Some "0712 345 678";
              userRole := Some "landlord" |} in
  asciiForm d = true /\
  hasErrors (validateRegistrationForm d) = false /\
  (exists p, password d = Some p /\ (6 <= String.length p)%nat).
Proof.
  intros d.
  assert (H : hasErrors (validateRegistrationForm d) = false)
    by (vm_compute; reflexivity).
  split; [reflexivity|]. split; [exact H|].
  apply (validateRegistrationForm_passes d eq_refl) in H.
  exact (proj1 (proj2 (proj2 H))).
Defined.

(** X27. The first error reported for the registration form follows the
    order in which the fields are checked: full name, e-mail address,
    password, phone number, role; and an error is reported exactly when
    the form has errors. *)
Theorem registration_first_error (d : RegistrationData) :
  let nameError :=
    orElse (validateRequired (fullName d) "Full name")
      (validateLength (default "" (fullName d)) "Full name" (Some 2%Z) (Some 50%Z)) in
  let roleError :=
    if bool_decide (userRole d = Some "tenant" \/ userRole d = Some "landlord")
    then None else Some "Please select a valid user role" in
  getFirstError (validateRegistrationForm d)
  = orElse nameError
      (orElse (validateEmail (email d))
         (orElse (validatePassword (password d))
            (orElse (validatePhoneNumber (phoneNumber d)) roleError))) /\
  (getFirstError (validateRegistrationForm d) = None <->
   hasErrors (validateRegistrationForm d) = false).
Proof.
  intros nameError roleError. split.
  - unfold validateRegistrationForm. fold nameError.
    assert (Hrole : forall errors : list (string * string),
      getFirstError
        match userRole d with
        | None | Some EmptyString =>
            errors ++ [("userRole", "Please select a valid user role")]
        | Some role =>
            if negb (String.eqb role "tenant" || String.eqb role "landlord")
            then errors ++ [("userRole", "Please select a valid user role")]
            else errors
        end = orElse (getFirstError errors) roleError).
    { intros errors. unfold roleError.
      assert (Hsnoc : forall msg : string,
        getFirstError (errors ++ [("userRole", msg)])
        = orElse (getFirstError errors) (Some msg)).
      { intros msg. destruct errors as [|[k m] errors]; reflexivity. }
      destruct (userRole d) as [[|c role]|].
      - rewrite Hsnoc, bool_decide_eq_false_2; [reflexivity|].
        intros [H|H]; discriminate.
      - remember (String c role) as r eqn:Hr.
        destruct (String.eqb_spec r "tenant") as [Ht|Ht];
          destruct (String.eqb_spec r "landlord") as [Hl|Hl]; cbn [negb orb];
          try (rewrite bool_decide_eq_true_2 by (subst r; rewrite ?Ht, ?Hl; auto);
               destruct (getFirstError errors); reflexivity).
        rewrite Hsnoc, bool_decide_eq_false_2; [reflexivity|].
        intros [[= H]|[= H]]; congruence.
      - rewrite Hsnoc, bool_decide_eq_false_2; [reflexivity|].
        intros [H|H]; discriminate. }
    rewrite Hrole.
    assert (Hset : forall key e (errors : list (string * string)),
      getFirstError (setError key e errors) = orElse (getFirstError errors) e).
    { intros key e errors. unfold setError.
      destruct e as [msg|].
      - destruct errors as [|[k m] errors]; reflexivity.
      - destruct (getFirstError errors); reflexivity. }
    rewrite !Hset. simpl.
    destruct nameError, (validateEmail (email d)),
      (validatePassword (password d)), (validatePhoneNumber (phoneNumber d));
      reflexivity.
  - destruct (validateRegistrationForm d) as [|[k m] l]; simpl;
      split; congruence.
Qed.

End ValidatorFacts.

(** ** From an owner's listing to the detail lookup *)

(** X28. In a list whose ids are pairwise different, every property listed
    for an owner belongs to that owner and is the one the detail lookup
    returns for its id; the owner's listing is a subsequence of the list. *)
Theorem owner_listing_detail_lookup (P : list Property) (o : string)
    (p : Property) :
  NoDup (map id P) -> p ∈ filterByOwner P o ->
  ownerId p = o /\ findProperty P (id p) = Some p /\
  sublist (filterByOwner P o) P.
Proof.
  intros Hnd Hin. unfold filterByOwner in *.
  apply elem_of_bool_filter in Hin as [Hin Ho].
  apply String.eqb_eq in Ho.
  split; [exact Ho|]. split.
  - now apply findProperty_own_id.
  - apply filter_sublist.
Qed.

Lemma owner_listing_detail_lookup_witness :
  let P := mockProperties 0 (fun _ => "") in
  let p := mock8 0 (fun _ => "") in
  NoDup (map id P) /\ p ∈ filterByOwner P "owner-1" /\
  ownerId p = "owner-1" /\ findProperty P (id p) = Some p /\
  sublist (filterByOwner P "owner-1") P.
Proof.
  intros P p.
  assert (Hnd : NoDup (map id P)).
  { apply (bool_decide_unpack (NoDup (map id P))). vm_compute. exact I. }
  assert (Hin : p ∈ filterByOwner P "owner-1").
  { unfold filterByOwner. apply elem_of_bool_filter. split; [|reflexivity].
    unfold P, mockProperties. do 7 apply list_elem_of_further.
    apply list_elem_of_here. }
  split; [exact Hnd|]. split; [exact Hin|].
  apply (owner_listing_detail_lookup P "owner-1" p Hnd Hin).
Defined.
